(** * maturagraph.py: derived series and chart gating of [generate_backtest_plots]

    The function reads a backtest result file, turns its [trades] list into a
    pandas DataFrame, sorts it by exit time, derives the "no spread" PnL and
    capital columns and the buy-and-hold benchmark, and saves up to five
    charts.  The rendering backend is opaque; a chart is represented by the
    data handed to it.

    Numbers.  JSON numbers are finite and are modelled as exact rationals
    ([Qc], with Leibniz equality); a missing number (a key that is absent
    from a record, or a JSON null), which pandas stores as NaN, is [None].
    Arithmetic on columns propagates [None] exactly as NaN propagates
    through [+ - * /].  A column in which every record has the value null
    keeps the [None] objects instead; pandas arithmetic reads them as
    missing all the same, and the one Python expression that meets them,
    the comparison of chart 2, is modelled with its exception.

    Records.  A trade is a record with the ten fields that the function
    reads, typed as in the result file: prices, sizes, slippages, capital
    and PnL are numbers, the direction and the two timestamps are strings,
    and every field may be absent or null.

    Library calls.  The timestamp parser and the argsort behind
    [sort_values] are parameters of the development; the sort is given the
    structure that pandas gives it and the argsort is only assumed to do
    what numpy documents for the default kind.  numpy's own argsort for
    that kind is embedded as well, to run the function on concrete files.

    Exceptions.  Two statements of the chart code can raise on data that
    the result file can hold: the colour rule of chart 2 and the palette of
    chart 3.  A run is therefore a sequence of blocks, each of which
    completes with its effects or raises; what is observed of a run is the
    trace of the blocks completed before the first raise, and the exception
    that escapes, if any. *)

From Stdlib Require Import List String Ascii ZArith QArith Qcanon Bool.
From Stdlib Require Import Permutation Sorted Lia.
Import ListNotations.

Local Open Scope Qc_scope.

(** ** A small model of the pandas operations that the module calls *)

Module Pandas.

(** One cell of a record of the [trades] list, before it enters the frame:
    the key may be absent from the JSON object, present with value null,
    or present with a value. *)
Inductive cell (A : Type) : Type :=
  | Absent
  | Null
  | Val (a : A).
Arguments Absent {A}.
Arguments Null {A}.
Arguments Val {A} a.

(** The key is in the dict (it contributes a column to the frame). *)
Definition present {A} (c : cell A) : bool :=
  match c with Absent => false | _ => true end.

(** What the frame holds at that position: NaN / NaT / None is [None]. *)
Definition value {A} (c : cell A) : option A :=
  match c with Val a => Some a | _ => None end.

(** A float64 Series: one optional number per row. *)
Definition series := list (option Qc).

Definition isna {A} (x : option A) : bool :=
  match x with None => true | Some _ => false end.

Definition notna {A} (x : option A) : bool := negb (isna x).

(** [Series.fillna(z)] *)
Definition fillna (z : Qc) (s : series) : series :=
  map (fun x => match x with Some v => Some v | None => Some z end) s.

(** [Series.map(dict)]: a key that is not in the dict (or a missing
    value) maps to NaN. *)
Fixpoint lookup (d : list (string * Qc)) (k : string) : option Qc :=
  match d with
  | [] => None
  | (k', v) :: d' => if String.eqb k k' then Some v else lookup d' k
  end.

Definition map_dict (d : list (string * Qc)) (s : list (option string))
  : series :=
  map (fun x => match x with Some k => lookup d k | None => None end) s.

(** Element-wise binary operation of two aligned Series. *)
Definition lift2 (op : Qc -> Qc -> Qc) (x y : option Qc) : option Qc :=
  match x, y with
  | Some a, Some b => Some (op a b)
  | _, _ => None
  end.

Fixpoint map2 {A B C} (f : A -> B -> C) (l : list A) (l' : list B)
  : list C :=
  match l, l' with
  | x :: t, y :: t' => f x y :: map2 f t t'
  | _, _ => []
  end.

Definition add (s s' : series) : series := map2 (lift2 Qcplus) s s'.
Definition sub (s s' : series) : series := map2 (lift2 Qcminus) s s'.
Definition mul (s s' : series) : series := map2 (lift2 Qcmult) s s'.

(** scalar + Series, scalar * Series, Series / scalar *)
Definition scalar_add (c : Qc) (s : series) : series :=
  map (option_map (fun x => c + x)) s.
Definition scalar_mul (c : Qc) (s : series) : series :=
  map (option_map (fun x => c * x)) s.
Definition div_scalar (s : series) (c : Qc) : series :=
  map (option_map (fun x => x / c)) s.

(** [numpy.cumsum] on an array without NaN. *)
Fixpoint np_cumsum (acc : Qc) (l : list Qc) : list Qc :=
  match l with
  | [] => []
  | x :: t => (acc + x) :: np_cumsum (acc + x) t
  end.

(** [Series.cumsum()] with the default [skipna=True]: the NaN positions are
    masked, summed as 0, and set back to NaN in the result. *)
Definition cumsum (s : series) : series :=
  let mask := map isna s in
  let vals := map (fun x => match x with Some v => v | None => 0 end) s in
  let result := np_cumsum 0 vals in
  map2 (fun (m : bool) r => if m then None else Some r) mask result.

(** [take]: the rows at the positions of an indexer, in its order.  An
    argsort only returns positions of its input; a position outside the
    list selects nothing. *)
Definition take {A} (indexer : list nat) (l : list A) : list A :=
  flat_map (fun i => match nth_error l i with
                     | Some x => [x]
                     | None => []
                     end) indexer.

(** The non-NaN values of a column, in row order ([items[~mask]]). *)
Definition dropna {A} (l : list (option A)) : list A :=
  flat_map (fun x => match x with Some v => [v] | None => [] end) l.

(** [x > 0] on a float: false on NaN. *)
Definition gt0 (x : option Qc) : bool :=
  match x with
  | Some v => match 0 ?= v with Lt => true | _ => false end
  | None => false
  end.

(** [base != 0] *)
Definition nonzero (x : Qc) : bool := negb (Qc_eq_bool x 0).

End Pandas.
Import Pandas.

(** ** Data model *)

(** One element of the [trades] list of the result file.  [T] is the type of
    a timestamp: a string in the file, an instant once [pd.to_datetime] has
    run. *)
Record trade (T : Type) : Type := mkTrade {
  entry_time : cell T;
  exit_time : cell T;
  mid_price_entry : cell Qc;
  mid_price_exit : cell Qc;
  position_size : cell Qc;
  direction : cell string;
  slippage_entry : cell Qc;
  slippage_exit : cell Qc;
  capital_after_exit : cell Qc;
  net_pnl : cell Qc
}.
Arguments mkTrade {T}.
Arguments entry_time {T}.
Arguments exit_time {T}.
Arguments mid_price_entry {T}.
Arguments mid_price_exit {T}.
Arguments position_size {T}.
Arguments direction {T}.
Arguments slippage_entry {T}.
Arguments slippage_exit {T}.
Arguments capital_after_exit {T}.
Arguments net_pnl {T}.

Definition key_if {A} (name : string) (c : cell A) : list string :=
  if present c then [name] else [].

(** The keys of the dict. *)
Definition keys {T} (r : trade T) : list string :=
  key_if "entry_time" (entry_time r) ++
  key_if "exit_time" (exit_time r) ++
  key_if "mid_price_entry" (mid_price_entry r) ++
  key_if "mid_price_exit" (mid_price_exit r) ++
  key_if "position_size" (position_size r) ++
  key_if "direction" (direction r) ++
  key_if "slippage_entry" (slippage_entry r) ++
  key_if "slippage_exit" (slippage_exit r) ++
  key_if "capital_after_exit" (capital_after_exit r) ++
  key_if "net_pnl" (net_pnl r).

(** The DataFrame [df].  [columns] are the columns that come from the file
    (the union of the keys of all records); the two columns that the function
    adds are kept apart, [None] while [df] does not have them. *)
Record DataFrame : Type := mkFrame {
  columns : list string;
  rows : list (trade Z);
  pnl_no_spread : option series;
  capital_no_spread : option series
}.

(** [name in df.columns] *)
Definition in_columns (name : string) (df : DataFrame) : bool :=
  existsb (String.eqb name) (columns df).

(** [cols.issubset(df.columns)] *)
Definition issubset (cols : list string) (df : DataFrame) : bool :=
  forallb (fun c => in_columns c df) cols.

(** [df[name]] for a column of the file. *)
Definition col {A} (f : trade Z -> cell A) (df : DataFrame)
  : list (option A) :=
  map (fun r => value (f r)) (rows df).

(** The values of [config] that the function reads. *)
Record config : Type := mkConfig {
  BACKTEST_RESULTS_FILE : string;
  LOGS_DIR : string;
  INITIAL_CAPITAL : Qc
}.

(** A parsed result file: [doc_trades] is [None] when the object has no
    ["trades"] key. *)
Record document : Type := mkDocument {
  doc_trades : option (list (trade string))
}.

(** The file system seen by the function: [None] when the path does not
    exist, the parsed JSON otherwise. *)
Definition filesystem := string -> option document.

Inductive color : Type := green | red.

(** What is handed to the chart backend for each of the five charts. *)
Inductive figure : Type :=
| EquityCurve (x : list (option Z)) (capital : series)
              (no_spread : option series)
| EquityVsBuyHold (x : list (option Z)) (capital : series)
                  (buy_hold : series)
| PnlPerTrade (pnl : series) (colors : list color)
| PnlOverTime (x : list (option Z)) (pnl : series)
              (hue : option (list (option string)))
| PnlDistribution (pnl : series) (bins : nat).

Inductive chart_kind : Type :=
| equity_curve | equity_vs_buyhold | pnl_per_trade | pnl_over_time
| pnl_distribution.

Definition kind_of (f : figure) : chart_kind :=
  match f with
  | EquityCurve _ _ _ => equity_curve
  | EquityVsBuyHold _ _ _ => equity_vs_buyhold
  | PnlPerTrade _ _ => pnl_per_trade
  | PnlOverTime _ _ _ => pnl_over_time
  | PnlDistribution _ _ => pnl_distribution
  end.

Definition chart_kind_eqb (a b : chart_kind) : bool :=
  match a, b with
  | equity_curve, equity_curve
  | equity_vs_buyhold, equity_vs_buyhold
  | pnl_per_trade, pnl_per_trade
  | pnl_over_time, pnl_over_time
  | pnl_distribution, pnl_distribution => true
  | _, _ => false
  end.

(** The observable effects of a run, in program order. *)
Inductive event : Type :=
| Print (line : string)
| MakeDirs (dir : string)
| SaveFig (path : string) (fig : figure).

(** The exceptions that the chart code lets escape. *)
Inductive exn : Type := TypeError | ValueError.

(** A block of statements either completes with its effects or raises
    before it has any. *)
Inductive block : Type :=
| Done (out : list event)
| Raised (e : exn).

(** The effects of a sequence of blocks: those of the blocks that complete
    before the first one that raises. *)
Fixpoint trace (bs : list block) : list event :=
  match bs with
  | [] => []
  | Done out :: bs' => out ++ trace bs'
  | Raised _ :: _ => []
  end.

(** The exception that escapes from a sequence of blocks. *)
Fixpoint raised (bs : list block) : option exn :=
  match bs with
  | [] => None
  | Done _ :: bs' => raised bs'
  | Raised e :: _ => Some e
  end.

(** An element of a column as a Python lambda sees it: a float of a float64
    column (NaN is [None]), or the object [None] of a column of nulls. *)
Inductive pyobject : Type :=
| PyFloat (x : option Qc)
| PyNone.

(** [Series.apply(f)]: the first exception raised by [f] escapes. *)
Fixpoint apply {A B} (f : A -> exn + B) (l : list A) : exn + list B :=
  match l with
  | [] => inr []
  | x :: t =>
      match f x with
      | inl e => inl e
      | inr y => match apply f t with
                 | inl e => inl e
                 | inr ys => inr (y :: ys)
                 end
      end
  end.

(** The kinds of the charts saved by a run. *)
Definition saved (out : list event) : list chart_kind :=
  flat_map (fun e => match e with
                     | SaveFig _ f => [kind_of f]
                     | _ => []
                     end) out.

Definition is_saved (k : chart_kind) (out : list event) : bool :=
  existsb (chart_kind_eqb k) (saved out).

(** The lines printed by a run. *)
Definition printed (out : list event) : list string :=
  flat_map (fun e => match e with Print l => [l] | _ => [] end) out.

(** [os.path.join(dir, file)] on POSIX. *)
Definition ends_with_slash (s : string) : bool :=
  match get (String.length s - 1) s with
  | Some c => Ascii.eqb c "/"
  | None => false
  end.

Definition path_join (dir file : string) : string :=
  if String.prefix "/" file then file
  else if (String.eqb dir "" || ends_with_slash dir)%bool
       then (dir ++ file)%string
       else (dir ++ "/" ++ file)%string.

(** ** Executable stand-ins for the two library calls left abstract below *)

(** An argsort by insertion.  With [rev_ties = false] a key is inserted
    before the first key that is not smaller (equal keys keep their input
    order); with [rev_ties = true] it is inserted before the first strictly
    larger key, so equal keys come out in reverse input order.  Both orders
    are ascending. *)
Definition goes_before (rev_ties : bool) (x y : Z) : bool :=
  if rev_ties then (x <? y)%Z else (x <=? y)%Z.

Fixpoint insert_key (rev_ties : bool) (x : Z * nat) (l : list (Z * nat))
  : list (Z * nat) :=
  match l with
  | [] => [x]
  | y :: t =>
      if goes_before rev_ties (fst x) (fst y) then x :: l
      else y :: insert_key rev_ties x t
  end.

(** The order in which the insertion leaves the (key, position) pairs. *)
Definition key_le (a b : Z * nat) : Prop := (fst a <= fst b)%Z.

Definition insertion_argsort (rev_ties : bool) (ks : list Z) : list nat :=
  map snd (fold_right (insert_key rev_ties) []
                      (combine ks (seq 0 (List.length ks)))).

(** A timestamp parser that reads a non-empty string of decimal digits as
    seconds since the epoch and rejects everything else. *)
Fixpoint parse_digits (acc : Z) (s : string) : option Z :=
  match s with
  | EmptyString => Some acc
  | String c t =>
      let n := nat_of_ascii c in
      if ((48 <=? n) && (n <=? 57))%nat
      then parse_digits (10 * acc + Z.of_nat (n - 48)) t
      else None
  end.

Definition parse_epoch (s : string) : option Z :=
  match s with
  | EmptyString => None
  | _ => parse_digits 0 s
  end.

(** numpy's argsort for the kind ["quicksort"], which is what
    [sort_values] runs on the exit times that are not NaT; these compare as
    the integers they are (npysort, [aquicksort]).  It is an introsort on
    an array of positions.  A segment of more than 16 positions is
    partitioned around the median of its first, middle and last key; a
    shorter one is finished by insertion; when the partitions have gone
    deeper than twice the bit length of the number of keys, the segment is
    sorted as a heap instead.  Positions are swapped across equal keys, so
    the sort is not stable. *)
Definition aget (a : list nat) (i : nat) : nat := nth i a 0%nat.

Fixpoint aset (a : list nat) (i : nat) (x : nat) : list nat :=
  match a, i with
  | [], _ => []
  | _ :: t, O => x :: t
  | y :: t, S i' => y :: aset t i' x
  end.

Definition INTP_SWAP (a : list nat) (i j : nat) : list nat :=
  aset (aset a i (aget a j)) j (aget a i).

Definition SMALL_QUICKSORT : nat := 16.

Section Npysort.

(** The keys [v]; [tosort] below is the array [a] of positions. *)
Variable v : list Z.

Definition key_at (a : list nat) (i : nat) : Z := nth (aget a i) v 0%Z.

Definition less (x y : Z) : bool := (x <? y)%Z.

(** [while (pj > pl && less(vp, v[*pk])) *pj-- = *pk--;  *pj = vi;] *)
Fixpoint shift_down (fuel : nat) (a : list nat) (pl pj : nat) (vi : nat)
  : list nat :=
  match fuel with
  | O => aset a pj vi
  | S f =>
      if ((pl <? pj)%nat && less (nth vi v 0%Z) (key_at a (pj - 1)))%bool
      then shift_down f (aset a pj (aget a (pj - 1))) pl (pj - 1)%nat vi
      else aset a pj vi
  end.

(** [for (pi = pl + 1; pi <= pr; ++pi)] *)
Fixpoint insertion (count : nat) (a : list nat) (pl pi : nat) : list nat :=
  match count with
  | O => a
  | S c => insertion c (shift_down pi a pl pi (aget a pi)) pl (S pi)
  end.

Definition insertion_sort (a : list nat) (pl pr : nat) : list nat :=
  insertion (pr - pl) a pl (S pl).

(** [do ++pi; while (less(v[*pi], vp));] *)
Fixpoint scan_up (fuel : nat) (a : list nat) (pi : nat) (vp : Z) : nat :=
  match fuel with
  | O => S pi
  | S f => if less (key_at a (S pi)) vp then scan_up f a (S pi) vp else S pi
  end.

(** [do --pj; while (less(vp, v[*pj]));] *)
Fixpoint scan_down (fuel : nat) (a : list nat) (pj : nat) (vp : Z) : nat :=
  match fuel with
  | O => (pj - 1)%nat
  | S f =>
      if less vp (key_at a (pj - 1))
      then scan_down f a (pj - 1)%nat vp
      else (pj - 1)%nat
  end.

(** [for (;;) { scan up; scan down; if (pi >= pj) break; swap; }] *)
Fixpoint partition_loop (fuel : nat) (a : list nat) (pi pj : nat) (vp : Z)
  : list nat * nat :=
  match fuel with
  | O => (a, pi)
  | S f =>
      let pi' := scan_up (List.length a) a pi vp in
      let pj' := scan_down (List.length a) a pj vp in
      if (pj' <=? pi')%nat then (a, pi')
      else partition_loop f (INTP_SWAP a pi' pj') pi' pj' vp
  end.

(** The median of three goes to [pr - 1], the scans meet at [pi], and the
    pivot is swapped back to [pi]. *)
Definition partition (a : list nat) (pl pr : nat) : list nat * nat :=
  let pm := (pl + (pr - pl) / 2)%nat in
  let a := if less (key_at a pm) (key_at a pl) then INTP_SWAP a pm pl
           else a in
  let a := if less (key_at a pr) (key_at a pm) then INTP_SWAP a pr pm
           else a in
  let a := if less (key_at a pm) (key_at a pl) then INTP_SWAP a pm pl
           else a in
  let vp := key_at a pm in
  let pj := (pr - 1)%nat in
  let a := INTP_SWAP a pm pj in
  let '(a, pi) := partition_loop (List.length a) a pl pj vp in
  (INTP_SWAP a pi (pr - 1), pi).

(** [aheapsort] on the segment [pl..pr], which it indexes from 1. *)
Definition hget (a : list nat) (pl i : nat) : nat := aget a (pl + i - 1).

Definition hset (a : list nat) (pl i x : nat) : list nat :=
  aset a (pl + i - 1) x.

Fixpoint sift (fuel : nat) (a : list nat) (pl n i j tmp : nat) : list nat :=
  match fuel with
  | O => hset a pl i tmp
  | S f =>
      if (j <=? n)%nat then
        let j := if ((j <? n)%nat
                     && less (nth (hget a pl j) v 0%Z)
                             (nth (hget a pl (S j)) v 0%Z))%bool
                 then S j else j in
        if less (nth tmp v 0%Z) (nth (hget a pl j) v 0%Z)
        then sift f (hset a pl i (hget a pl j)) pl n j (j + j)%nat tmp
        else hset a pl i tmp
      else hset a pl i tmp
  end.

Fixpoint heapify (l : nat) (a : list nat) (pl n : nat) : list nat :=
  match l with
  | O => a
  | S l' => heapify l' (sift n a pl n l (2 * l)%nat (hget a pl l)) pl n
  end.

Fixpoint extract (n : nat) (a : list nat) (pl : nat) : list nat :=
  match n with
  | O => a
  | S n' =>
      match n' with
      | O => a
      | S _ =>
          let tmp := hget a pl n in
          let a := hset a pl n (hget a pl 1) in
          extract n' (sift n' a pl n' 1 2 tmp) pl
      end
  end.

Definition aheapsort (a : list nat) (pl pr : nat) : list nat :=
  let n := (pr - pl + 1)%nat in
  extract n (heapify (n / 2) a pl n) pl.

(** The loop over the stack of segments.  [popped] tells that the segment
    comes from the stack, where its depth is checked; the shorter part of
    a partition is continued at once and the longer one is pushed. *)
Fixpoint aquicksort (fuel : nat) (popped : bool) (cdepth : Z)
         (a : list nat) (pl pr : nat) : list nat :=
  match fuel with
  | O => a
  | S f =>
      if (popped && (cdepth <? 0)%Z)%bool then aheapsort a pl pr
      else if (SMALL_QUICKSORT <? pr - pl + 1)%nat then
        let '(a, pi) := partition a pl pr in
        let d := (cdepth - 1)%Z in
        if (pi - pl <? pr - pi)%nat
        then aquicksort f true d (aquicksort f false d a pl (pi - 1)%nat)
                        (pi + 1)%nat pr
        else aquicksort f true d (aquicksort f false d a (pi + 1)%nat pr)
                        pl (pi - 1)%nat
      else insertion_sort a pl pr
  end.

End Npysort.

Definition numpy_argsort (v : list Z) : list nat :=
  let n := List.length v in
  match n with
  | O => []
  | S m => aquicksort v (S n) true (2 * Z.log2 (Z.of_nat n)) (seq 0 n) 0 m
  end.

(** A timestamp parser for the form [YYYY-MM-DD hh:mm:ss] (or with [T] in
    the middle), the result in nanoseconds since the epoch as in a
    datetime64 column; everything else is rejected. *)
Definition field (s : string) (start len : nat) : option Z :=
  parse_digits 0 (substring start len s).

Definition separator (s : string) (i : nat) (c : ascii) : bool :=
  match get i s with
  | Some c' => Ascii.eqb c c'
  | None => false
  end.

Definition is_leap (y : Z) : bool :=
  ((y mod 4 =? 0) && (negb (y mod 100 =? 0) || (y mod 400 =? 0)))%Z%bool.

Definition days_in_month (y m : Z) : Z :=
  if (m =? 2)%Z then (if is_leap y then 29 else 28)%Z
  else if ((m =? 4) || (m =? 6) || (m =? 9) || (m =? 11))%Z%bool then 30%Z
  else 31%Z.

(** Days from 1970-01-01 to the given date of the Gregorian calendar. *)
Definition days_from_civil (y m d : Z) : Z :=
  let y := (if m <=? 2 then y - 1 else y)%Z in
  let era := (y / 400)%Z in
  let yoe := (y - era * 400)%Z in
  let mp := (if 2 <? m then m - 3 else m + 9)%Z in
  let doy := ((153 * mp + 2) / 5 + d - 1)%Z in
  let doe := (yoe * 365 + yoe / 4 - yoe / 100 + doy)%Z in
  (era * 146097 + doe - 719468)%Z.

Definition parse_iso (s : string) : option Z :=
  match field s 0 4, field s 5 2, field s 8 2,
        field s 11 2, field s 14 2, field s 17 2 with
  | Some y, Some m, Some d, Some h, Some mi, Some sec =>
      if ((String.length s =? 19)%nat
          && separator s 4 "-" && separator s 7 "-"
          && (separator s 10 " " || separator s 10 "T")
          && separator s 13 ":" && separator s 16 ":"
          && (1 <=? m)%Z && (m <=? 12)%Z
          && (1 <=? d)%Z && (d <=? days_in_month y m)%Z
          && (h <? 24)%Z && (mi <? 60)%Z && (sec <? 60)%Z)%bool
      then Some ((((days_from_civil y m d * 24 + h) * 60 + mi) * 60 + sec)
                 * 1000000000)%Z
      else None
  | _, _, _, _, _, _ => None
  end.

(** ** generate_backtest_plots *)

Section GenerateBacktestPlots.

(** [pd.to_datetime(_, errors="coerce")] on one string of the exit_time
    column of the result file at hand: [None] is NaT.  pandas fixes the
    format of a column from the column itself, so the parser belongs to one
    file; no statement below carries it from one file to another.  The
    entry_time column is converted as well and never read again. *)
Variable to_datetime : string -> option Z.

(** [numpy.argsort] with the kind that [DataFrame.sort_values] passes by
    default (["quicksort"]), on keys without NaT. *)
Variable argsort : list Z -> list nat.

Variable cfg : config.

(** *** Lines 48-53: the frame and its timestamps *)

Definition to_datetime_cell (c : cell string) : cell Z :=
  match c with
  | Absent => Absent
  | Null => Null
  | Val s => match to_datetime s with
             | Some t => Val t
             | None => Null
             end
  end.

Definition to_datetime_row (r : trade string) : trade Z :=
  {| entry_time := to_datetime_cell (entry_time r);
     exit_time := to_datetime_cell (exit_time r);
     mid_price_entry := mid_price_entry r;
     mid_price_exit := mid_price_exit r;
     position_size := position_size r;
     direction := direction r;
     slippage_entry := slippage_entry r;
     slippage_exit := slippage_exit r;
     capital_after_exit := capital_after_exit r;
     net_pnl := net_pnl r |}.

(** [pd.DataFrame(trades)] followed by the conversion of the two time
    columns.  A time column that is not in the frame has only [Absent]
    cells, which the conversion leaves alone, so the test
    [col in df.columns] needs no case of its own. *)
Definition load_frame (trades : list (trade string)) : DataFrame :=
  {| columns := nodup string_dec (flat_map keys trades);
     rows := map to_datetime_row trades;
     pnl_no_spread := None;
     capital_no_spread := None |}.

(** *** Lines 56-57: sort by exit time *)

(** [df.sort_values("exit_time").reset_index(drop=True)].  pandas sorts
    one column through [nargsort]: the rows whose key is NaT are set
    aside, the others are ordered by [argsort] of their keys, and the NaT
    rows are appended in row order ([na_position="last"]). *)
Definition sort_values_exit_time (df : DataFrame) : DataFrame :=
  let items := col exit_time df in
  let non_nans := dropna items in
  let non_nan_rows :=
    filter (fun r => notna (value (exit_time r))) (rows df) in
  let nan_rows :=
    filter (fun r => isna (value (exit_time r))) (rows df) in
  {| columns := columns df;
     rows := take (argsort non_nans) non_nan_rows ++ nan_rows;
     pnl_no_spread := pnl_no_spread df;
     capital_no_spread := capital_no_spread df |}.

Definition sort_by_exit_time (df : DataFrame) : DataFrame :=
  if in_columns "exit_time" df then sort_values_exit_time df else df.

(** *** Lines 59-78: equity without spread cost *)

Definition no_spread_cols : list string :=
  ["mid_price_entry"; "mid_price_exit"; "position_size"; "direction";
   "slippage_entry"; "slippage_exit"]%string.

Definition direction_sign : list (string * Qc) :=
  [("LONG"%string, 1); ("SHORT"%string, - (1))].

Definition add_no_spread (df : DataFrame) : DataFrame :=
  if issubset no_spread_cols df then
    let dir_sign := fillna 0 (map_dict direction_sign (col direction df)) in
    let slip_entry := fillna 0 (col slippage_entry df) in
    let slip_exit := fillna 0 (col slippage_exit df) in
    let entry_no_spread :=
      add (col mid_price_entry df) (mul dir_sign slip_entry) in
    let exit_no_spread :=
      sub (col mid_price_exit df) (mul dir_sign slip_exit) in
    let pnl :=
      mul (mul (sub exit_no_spread entry_no_spread) dir_sign)
          (col position_size df) in
    {| columns := columns df;
       rows := rows df;
       pnl_no_spread := Some pnl;
       capital_no_spread :=
         Some (scalar_add (INITIAL_CAPITAL cfg) (cumsum pnl)) |}
  else df.

(** The frame on which all charts are drawn. *)
Definition derive (trades : list (trade string)) : DataFrame :=
  add_no_spread (sort_by_exit_time (load_frame trades)).

(** *** Lines 83-188: the five charts *)

Section Charts.

Variables output_dir prefix : string.
Variable df : DataFrame.

Definition save (file : string) (fig : figure) : list event :=
  let path := path_join output_dir (prefix ++ file)%string in
  [SaveFig path fig; Print ("[SAVE] " ++ path)%string].

(** 1) equity curve, with the no-spread curve when [df] has it *)
Definition equity_curve_chart : list event :=
  if (in_columns "exit_time" df && in_columns "capital_after_exit" df)%bool
  then save "_equity_curve.png"
            (EquityCurve (col exit_time df) (col capital_after_exit df)
                         (capital_no_spread df))
  else [].

(** Lines 121-123: the benchmark, [None] when it is not computed. *)
Definition base_price : option Qc :=
  match col mid_price_exit df with
  | x :: _ => x
  | [] => None
  end.

Definition buy_hold_capital : option series :=
  match base_price with
  | Some b =>
      if nonzero b
      then Some (scalar_mul (INITIAL_CAPITAL cfg)
                            (div_scalar (col mid_price_exit df) b))
      else None
  | None => None
  end.

(** 1b) strategy against buy and hold *)
Definition equity_vs_buyhold_chart : list event :=
  if (in_columns "exit_time" df && in_columns "capital_after_exit" df
      && in_columns "mid_price_exit" df)%bool
  then match buy_hold_capital with
       | Some bh =>
           save "_equity_vs_buyhold.png"
                (EquityVsBuyHold (col exit_time df)
                                 (col capital_after_exit df) bh)
       | None => []
       end
  else [].

(** What [pd.DataFrame] makes of the net_pnl values of the records.  One
    number, or one record without the key (NaN), makes the column float64,
    with NaN for every null; when every record has the key with the value
    null, the column keeps the [None] objects. *)
Definition is_null {A} (c : cell A) : bool :=
  match c with Null => true | _ => false end.

Definition net_pnl_objects : list pyobject :=
  if forallb (fun r => is_null (net_pnl r)) (rows df)
  then map (fun _ => PyNone) (rows df)
  else map PyFloat (col net_pnl df).

(** 2) PnL per trade; ["green" if x > 0 else "red"]: [x > 0] is false on
    NaN and raises on [None]. *)
Definition bar_color (x : pyobject) : exn + color :=
  match x with
  | PyFloat v => inr (if gt0 v then green else red)
  | PyNone => inl TypeError
  end.

Definition pnl_per_trade_chart : block :=
  if in_columns "net_pnl" df
  then match apply bar_color net_pnl_objects with
       | inr colors =>
           Done (save "_pnl_per_trade.png"
                      (PnlPerTrade (col net_pnl df) colors))
       | inl e => Raised e
       end
  else Done [].

(** Lines 157-163: [palette={"LONG": "blue", "SHORT": "orange"}].  seaborn
    takes the levels of the hue from the distinct values of the column that
    are not null, and raises when a level is not a key of the palette. *)
Definition palette : list string := ["LONG"; "SHORT"]%string.

Definition missing_keys (hue : list (option string)) : list string :=
  filter (fun d => negb (existsb (String.eqb d) palette)) (dropna hue).

(** 3) PnL over exit time, coloured by direction when present *)
Definition pnl_over_time_chart : block :=
  if (in_columns "exit_time" df && in_columns "net_pnl" df)%bool
  then if in_columns "direction" df
       then match missing_keys (col direction df) with
            | [] =>
                Done (save "_pnl_over_time.png"
                           (PnlOverTime (col exit_time df) (col net_pnl df)
                                        (Some (col direction df))))
            | _ :: _ => Raised ValueError
            end
       else Done (save "_pnl_over_time.png"
                       (PnlOverTime (col exit_time df) (col net_pnl df) None))
  else Done [].

(** 4) distribution of the PnL *)
Definition pnl_distribution_chart : list event :=
  if in_columns "net_pnl" df
  then save "_pnl_distribution.png" (PnlDistribution (col net_pnl df) 40)
  else [].

(** The five charts in program order. *)
Definition chart_blocks : list block :=
  [Done equity_curve_chart; Done equity_vs_buyhold_chart;
   pnl_per_trade_chart; pnl_over_time_chart; Done pnl_distribution_chart].

(** What the charts do up to the end or to the first exception. *)
Definition charts : list event := trace chart_blocks.

End Charts.

(** *** The function *)

Definition or_default (o : option string) (d : string) : string :=
  match o with Some s => s | None => d end.

(** The body of the function, as the blocks that a call goes through. *)
Definition generate_backtest_plots_blocks (fs : filesystem)
           (results_path output_dir : option string) (prefix : string)
  : list block :=
  let results_path := or_default results_path (BACKTEST_RESULTS_FILE cfg) in
  let output_dir := or_default output_dir (LOGS_DIR cfg) in
  match fs results_path with
  | None =>
      [Done [Print ("[WARN] Backtest results file not found: "
                      ++ results_path)%string]]
  | Some data =>
      match doc_trades data with
      | None | Some [] =>
          [Done [Print "[WARN] No trades found in backtest results; skipping plot generation."]]
      | Some trades =>
          let df := derive trades in
          Done [MakeDirs output_dir] :: chart_blocks output_dir prefix df
      end
  end.

(** The effects of a call, up to its return or to the exception that ends
    it. *)
Definition generate_backtest_plots (fs : filesystem)
           (results_path output_dir : option string) (prefix : string)
  : list event :=
  trace (generate_backtest_plots_blocks fs results_path output_dir prefix).

(** The exception that a call raises to its caller, [None] when it
    returns. *)
Definition generate_backtest_plots_raises (fs : filesystem)
           (results_path output_dir : option string) (prefix : string)
  : option exn :=
  raised (generate_backtest_plots_blocks fs results_path output_dir prefix).

End GenerateBacktestPlots.

(** ** The specification's formulas, in its own words

    These definitions follow the text of the specification, not the code;
    the theorems below compare them with the columns that the code
    computes.  An arithmetic expression with a missing operand is missing. *)

(** "a direction sign (+1 for LONG, -1 for SHORT, 0 otherwise)" *)
Definition spec_sign {T} (r : trade T) : Qc :=
  match direction r with
  | Val d => if String.eqb d "LONG" then 1
             else if String.eqb d "SHORT" then - (1)
             else 0
  | _ => 0
  end.

(** "missing slippage values are treated as 0" *)
Definition spec_slippage (c : cell Qc) : Qc :=
  match c with Val s => s | _ => 0 end.

(** "Adjusted entry price = mid_price_entry + sign * slippage_entry;
    adjusted exit price = mid_price_exit - sign * slippage_exit;
    per-trade no-spread PnL = (adjusted_exit - adjusted_entry) * sign *
    position_size" *)
Definition spec_no_spread_pnl {T} (r : trade T) : option Qc :=
  let sign := spec_sign r in
  let adjusted_entry :=
    option_map (fun p => p + sign * spec_slippage (slippage_entry r))
               (value (mid_price_entry r)) in
  let adjusted_exit :=
    option_map (fun p => p - sign * spec_slippage (slippage_exit r))
               (value (mid_price_exit r)) in
  lift2 Qcmult
        (option_map (fun d => d * sign)
                    (lift2 Qcminus adjusted_exit adjusted_entry))
        (value (position_size r)).

(** "sum(no_spread_pnl[0..i])", summed in row order. *)
Definition spec_sum (s : series) : option Qc :=
  fold_left (lift2 Qcplus) s (Some 0).

(** "capital_no_spread[i] = initial_capital + sum(no_spread_pnl[0..i])" *)
Definition spec_capital_no_spread (initial_capital : Qc) (pnl : series)
           (i : nat) : option Qc :=
  lift2 Qcplus (Some initial_capital) (spec_sum (firstn (S i) pnl)).

(** The sum of the entries of a Series that are not missing. *)
Fixpoint sum_notna (s : series) : Qc :=
  match s with
  | [] => 0
  | Some v :: t => v + sum_notna t
  | None :: t => sum_notna t
  end.

(** "present on every record": the six fields of the no-spread series. *)
Definition has_no_spread_fields {T} (r : trade T) : bool :=
  present (mid_price_entry r) && present (mid_price_exit r)
  && present (position_size r) && present (direction r)
  && present (slippage_entry r) && present (slippage_exit r).

(** Some record of the set has the field. *)
Definition some_record_has {T A} (f : trade T -> cell A)
           (trades : list (trade T)) : bool :=
  existsb (fun r => present (f r)) trades.

(** The series, or the benchmark, has been computed. *)
Definition is_some {A} (o : option A) : bool := notna o.


(** What [numpy.argsort] promises for every kind: the result lists each
    position once and the keys read in that order are ascending.  Only the
    kinds ["mergesort"] and ["stable"] promise more (that equal keys keep
    their order); [sort_values] is called without [kind], which selects
    ["quicksort"]. *)
Definition argsort_ok (argsort : list Z -> list nat) : Prop :=
  forall ks : list Z,
    Permutation (argsort ks) (seq 0 (List.length ks)) /\
    Sorted Z.le (take (argsort ks) ks).

(** The defined exit times of a list of rows, in row order. *)
Definition exit_times (rs : list (trade Z)) : list Z :=
  dropna (map (fun r => value (exit_time r)) rs).

Definition missing_exit_time (r : trade Z) : bool :=
  isna (value (exit_time r)).

(** Each of the six fields of the no-spread series is a key of at least one
    record (so that the frame has the column). *)
Definition no_spread_columns_present {T} (trades : list (trade T)) : bool :=
  some_record_has mid_price_entry trades
  && some_record_has mid_price_exit trades
  && some_record_has position_size trades
  && some_record_has direction trades
  && some_record_has slippage_entry trades
  && some_record_has slippage_exit trades.

(** ** Sample data *)

Definition Qz (z : Z) : Qc := Q2Qc (inject_Z z).

Definition sample_config : config :=
  {| BACKTEST_RESULTS_FILE := "backtest_results.json";
     LOGS_DIR := "logs";
     INITIAL_CAPITAL := Qz 10000 |}.

(** A file system with one result file, at the configured path. *)
Definition sample_fs (trades : option (list (trade string))) : filesystem :=
  fun path =>
    if String.eqb path "backtest_results.json"
    then Some {| doc_trades := trades |}
    else None.

(** A record with the six no-spread fields and nothing else. *)
Definition no_spread_trade (d : string) (entry exit size : Z)
  : trade string :=
  {| entry_time := Absent; exit_time := Absent;
     mid_price_entry := Val (Qz entry); mid_price_exit := Val (Qz exit);
     position_size := Val (Qz size); direction := Val d;
     slippage_entry := Val 0; slippage_exit := Val 0;
     capital_after_exit := Absent; net_pnl := Absent |}.

(** The two worked examples of the specification. *)
Definition long_example : trade string := no_spread_trade "LONG" 100 110 2.
Definition short_example : trade string := no_spread_trade "SHORT" 100 90 1.

(** A complete record. *)
Definition full_trade (t : string) (d : string) (entry exit size : Z)
           (capital pnl : Z) : trade string :=
  {| entry_time := Val t; exit_time := Val t;
     mid_price_entry := Val (Qz entry); mid_price_exit := Val (Qz exit);
     position_size := Val (Qz size); direction := Val d;
     slippage_entry := Val 0; slippage_exit := Val 0;
     capital_after_exit := Val (Qz capital); net_pnl := Val (Qz pnl) |}.

Definition with_position_size (c : cell Qc) (r : trade string)
  : trade string :=
  {| entry_time := entry_time r; exit_time := exit_time r;
     mid_price_entry := mid_price_entry r;
     mid_price_exit := mid_price_exit r;
     position_size := c; direction := direction r;
     slippage_entry := slippage_entry r; slippage_exit := slippage_exit r;
     capital_after_exit := capital_after_exit r; net_pnl := net_pnl r |}.

Definition with_mid_price_entry (c : cell Qc) (r : trade string)
  : trade string :=
  {| entry_time := entry_time r; exit_time := exit_time r;
     mid_price_entry := c;
     mid_price_exit := mid_price_exit r;
     position_size := position_size r; direction := direction r;
     slippage_entry := slippage_entry r; slippage_exit := slippage_exit r;
     capital_after_exit := capital_after_exit r; net_pnl := net_pnl r |}.

Definition with_mid_price_exit (c : cell Qc) (r : trade string)
  : trade string :=
  {| entry_time := entry_time r; exit_time := exit_time r;
     mid_price_entry := mid_price_entry r;
     mid_price_exit := c;
     position_size := position_size r; direction := direction r;
     slippage_entry := slippage_entry r; slippage_exit := slippage_exit r;
     capital_after_exit := capital_after_exit r; net_pnl := net_pnl r |}.

Definition without_net_pnl (r : trade string) : trade string :=
  {| entry_time := entry_time r; exit_time := exit_time r;
     mid_price_entry := mid_price_entry r;
     mid_price_exit := mid_price_exit r;
     position_size := position_size r; direction := direction r;
     slippage_entry := slippage_entry r; slippage_exit := slippage_exit r;
     capital_after_exit := capital_after_exit r; net_pnl := Absent |}.

(** The pipeline run with the stand-ins: timestamps are epoch seconds and
    the argsort keeps equal keys in input order. *)
Definition sample_derive : list (trade string) -> DataFrame :=
  derive parse_epoch (insertion_argsort false) sample_config.

(** Two complete trades, given in reverse order of exit. *)
Definition sample_trades : list (trade string) :=
  [full_trade "2" "LONG" 100 110 2 10030 20;
   full_trade "1" "SHORT" 100 90 1 10010 10].

(** The first trade has [position_size: null]. *)
Definition missing_size_trades : list (trade string) :=
  [with_position_size Null (full_trade "1" "LONG" 100 110 2 10000 0);
   full_trade "2" "LONG" 100 110 1 10010 10].

(** Two trades that exit at the same time. *)
Definition tied_trades : list (trade string) :=
  [full_trade "5" "LONG" 100 110 2 10020 20;
   full_trade "5" "SHORT" 100 90 1 10030 10].

(** The second record has no [mid_price_entry] key. *)
Definition partial_trades : list (trade string) :=
  [long_example; with_mid_price_entry Absent short_example].


(** A trade with an unrecognised direction and [position_size: null],
    after a regular one. *)
Definition neutral_trades : list (trade string) :=
  [full_trade "1" "LONG" 100 110 2 10020 20;
   with_position_size Null (full_trade "2" "FLAT" 100 110 2 10020 0)].

(** A neutral trade with all its numbers, after a regular one. *)
Definition neutral_complete_trades : list (trade string) :=
  [full_trade "1" "LONG" 100 110 2 10020 20;
   full_trade "2" "FLAT" 100 110 2 10020 0].

(** The first trade by exit time has a zero mid price at exit. *)
Definition zero_base_trades : list (trade string) :=
  [with_mid_price_exit (Val 0) (full_trade "1" "LONG" 100 110 2 10020 20);
   full_trade "2" "SHORT" 100 90 1 10030 10].

(** Trades without the [net_pnl] key. *)
Definition no_net_pnl_trades : list (trade string) :=
  map without_net_pnl sample_trades.

(** The pipeline run with numpy's argsort on timestamps in the ISO form. *)
Definition numpy_derive : list (trade string) -> DataFrame :=
  derive parse_iso numpy_argsort sample_config.

Definition numpy_run (trades : list (trade string)) : list event :=
  generate_backtest_plots parse_iso numpy_argsort sample_config
                          (sample_fs (Some trades)) None None "backtest".

Definition numpy_run_raises (trades : list (trade string)) : option exn :=
  generate_backtest_plots_raises parse_iso numpy_argsort sample_config
                                 (sample_fs (Some trades)) None None
                                 "backtest".

(** Seventeen complete trades that all exit at the same second; the
    net_pnl of a trade is its position in the file. *)
Definition seventeen_tied_trades : list (trade string) :=
  map (fun k => full_trade "2024-01-02 10:00:00" "LONG" 100 110 1
                           (10000 + k) k)
      [0; 1; 2; 3; 4; 5; 6; 7; 8; 9; 10; 11; 12; 13; 14; 15; 16]%Z.

(** A regular trade, then one with a direction that is neither LONG nor
    SHORT. *)
Definition flat_trades : list (trade string) :=
  [full_trade "2024-01-02 10:00:00" "LONG" 100 110 2 10020 20;
   full_trade "2024-01-03 10:00:00" "FLAT" 110 120 2 10020 0].

(** The same with a zero mid price at the first exit. *)
Definition flat_zero_base_trades : list (trade string) :=
  [with_mid_price_exit (Val 0)
     (full_trade "2024-01-02 10:00:00" "LONG" 100 110 2 10020 20);
   full_trade "2024-01-03 10:00:00" "FLAT" 110 120 2 10020 0].



(** ** Further observations on a run *)

(** The paths of the figures saved by a run, in program order. *)
Definition saved_paths (out : list event) : list string :=
  flat_map (fun e => match e with SaveFig p _ => [p] | _ => [] end) out.

(** The figures saved by a run, in program order. *)
Definition saved_figures (out : list event) : list figure :=
  flat_map (fun e => match e with SaveFig _ f => [f] | _ => [] end) out.

(** What [fig.savefig(path)] followed by [print(f"[SAVE] {path}")] leaves
    in the trace, for a list of figures with their paths. *)
Definition save_events (figs : list (string * figure)) : list event :=
  flat_map (fun pf => [SaveFig (fst pf) (snd pf);
                       Print ("[SAVE] " ++ fst pf)%string]) figs.

(** The file name of each chart after the prefix (lines 108, 134, 148, 172
    and 185). *)
Definition file_suffix (k : chart_kind) : string :=
  match k with
  | equity_curve => "_equity_curve.png"
  | equity_vs_buyhold => "_equity_vs_buyhold.png"
  | pnl_per_trade => "_pnl_per_trade.png"
  | pnl_over_time => "_pnl_over_time.png"
  | pnl_distribution => "_pnl_distribution.png"
  end.

(** The path to which the chart of a kind is written. *)
Definition chart_path (output_dir prefix : string) (k : chart_kind)
  : string :=
  path_join output_dir (prefix ++ file_suffix k)%string.

(** The order in which the function draws the charts. *)
Definition chart_order : list chart_kind :=
  [equity_curve; equity_vs_buyhold; pnl_per_trade; pnl_over_time;
   pnl_distribution].

(** [l] is [l'] with some elements left out. *)
Fixpoint is_subsequence (l l' : list chart_kind) {struct l'} : bool :=
  match l, l' with
  | [], _ => true
  | _ :: _, [] => false
  | x :: t, y :: t' =>
      if chart_kind_eqb x y then is_subsequence t t' else is_subsequence l t'
  end.

(** The lengths of the data columns handed to the backend for a figure. *)
Definition figure_lengths (f : figure) : list nat :=
  match f with
  | EquityCurve x capital no_spread =>
      [List.length x; List.length capital]
      ++ match no_spread with Some s => [List.length s] | None => [] end
  | EquityVsBuyHold x capital buy_hold =>
      [List.length x; List.length capital; List.length buy_hold]
  | PnlPerTrade pnl colors => [List.length pnl; List.length colors]
  | PnlOverTime x pnl hue =>
      [List.length x; List.length pnl]
      ++ match hue with Some h => [List.length h] | None => [] end
  | PnlDistribution pnl _ => [List.length pnl]
  end.

(** The exit time of a row that has one. *)
Definition exit_key (r : trade Z) : Z :=
  match value (exit_time r) with Some t => t | None => 0%Z end.

(** Two complete trades whose exit times do not parse. *)
Definition unparsable_trades : list (trade string) :=
  [full_trade "tomorrow" "LONG" 100 110 2 10020 20;
   full_trade "yesterday" "SHORT" 100 90 1 10030 10].

(** A record that has a direction and nothing else. *)
Definition bare_trades : list (trade string) :=
  [{| entry_time := Absent; exit_time := Absent;
      mid_price_entry := Absent; mid_price_exit := Absent;
      position_size := Absent; direction := Val "LONG"%string;
      slippage_entry := Absent; slippage_exit := Absent;
      capital_after_exit := Absent; net_pnl := Absent |}].

(** A long trade that pays slippage 1 at entry and 2 at exit. *)
Definition slippage_trades : list (trade string) :=
  [{| entry_time := Val "1"%string; exit_time := Val "1"%string;
      mid_price_entry := Val (Qz 100); mid_price_exit := Val (Qz 110);
      position_size := Val (Qz 2); direction := Val "LONG"%string;
      slippage_entry := Val (Qz 1); slippage_exit := Val (Qz 2);
      capital_after_exit := Val (Qz 10014); net_pnl := Val (Qz 14) |}].

(** A run with the stand-ins on a result file at the configured path that
    holds the given trades, with default arguments. *)
Definition sample_run (trades : list (trade string)) : list event :=
  generate_backtest_plots parse_epoch (insertion_argsort false) sample_config
                          (sample_fs (Some trades)) None None "backtest".

(** * Properties *)

(** ** Facts about the Series operations *)

Section SeriesFacts.

Lemma nth_error_map2 {A B C} (f : A -> B -> C) (l : list A) (l' : list B)
      (i : nat) :
  nth_error (map2 f l l') i =
  match nth_error l i, nth_error l' i with
  | Some a, Some b => Some (f a b)
  | _, _ => None
  end.
Proof.
  revert l' i; induction l as [|a l IH]; intros [|b l'] [|i]; simpl;
    try reflexivity.
  - destruct (nth_error l i); reflexivity.
  - apply IH.
Qed.

Lemma length_map2 {A B C} (f : A -> B -> C) (l : list A) (l' : list B) :
  List.length l = List.length l' ->
  List.length (map2 f l l') = List.length l.
Proof.
  revert l'; induction l as [|a l IH]; intros [|b l'] H; simpl in *;
    try reflexivity; try discriminate.
  f_equal; apply IH; congruence.
Qed.

Lemma length_np_cumsum (l : list Qc) (acc : Qc) :
  List.length (np_cumsum acc l) = List.length l.
Proof.
  revert acc; induction l as [|x l IH]; intros acc; simpl;
    [reflexivity | f_equal; apply IH].
Qed.

Lemma length_cumsum (s : series) : List.length (cumsum s) = List.length s.
Proof.
  unfold cumsum.
  rewrite length_map2; rewrite ?length_np_cumsum, !length_map; reflexivity.
Qed.

(** The masked cumulative sum, started from any accumulator. *)
Lemma nth_error_cumsum_from (s : series) (acc : Qc) (i : nat) :
  nth_error
    (map2 (fun (m : bool) r => if m then None else Some r)
          (map isna s)
          (np_cumsum acc
             (map (fun x => match x with Some v => v | None => 0 end) s)))
    i
  = match nth_error s i with
    | Some (Some _) => Some (Some (acc + sum_notna (firstn (S i) s)))
    | Some None => Some None
    | None => None
    end.
Proof.
  revert acc i; induction s as [|x s IH]; intros acc [|i].
  - reflexivity.
  - reflexivity.
  - destruct x as [v|]; simpl; [|reflexivity].
    do 2 f_equal; ring.
  - cbn [map np_cumsum map2 nth_error]. rewrite IH.
    destruct (nth_error s i) as [[w|]|]; try reflexivity.
    do 2 f_equal. rewrite firstn_cons.
    destruct x as [v|]; cbn [sum_notna]; ring.
Qed.

(** [cumsum] entry by entry: missing where the input is missing, the sum
    of the defined entries up to and including [i] elsewhere. *)
Lemma nth_error_cumsum (s : series) (i : nat) :
  nth_error (cumsum s) i =
  match nth_error s i with
  | Some (Some _) => Some (Some (sum_notna (firstn (S i) s)))
  | Some None => Some None
  | None => None
  end.
Proof.
  unfold cumsum. rewrite nth_error_cumsum_from.
  destruct (nth_error s i) as [[w|]|]; try reflexivity.
  do 2 f_equal; ring.
Qed.

(** On a prefix without missing entries the specification's sum is the
    sum of the entries. *)
Lemma spec_sum_from (s : series) (acc : Qc) :
  forallb notna s = true ->
  fold_left (lift2 Qcplus) s (Some acc) = Some (acc + sum_notna s).
Proof.
  revert acc; induction s as [|x s IH]; intros acc H; simpl in *.
  - f_equal; ring.
  - destruct x as [v|]; [|discriminate]. simpl in H.
    rewrite IH by exact H. f_equal; ring.
Qed.

Lemma spec_sum_all_defined (s : series) :
  forallb notna s = true -> spec_sum s = Some (sum_notna s).
Proof.
  intros H. unfold spec_sum. rewrite spec_sum_from by exact H.
  f_equal; ring.
Qed.

Lemma sum_notna_snoc (s : series) (x : option Qc) :
  sum_notna (s ++ [x]) =
  sum_notna s + match x with Some v => v | None => 0 end.
Proof.
  induction s as [|y s IH]; simpl.
  - destruct x; ring.
  - destruct y; rewrite IH; ring.
Qed.

Lemma firstn_S_nth_error {A} (l : list A) (i : nat) (x : A) :
  nth_error l i = Some x -> firstn (S i) l = firstn i l ++ [x].
Proof.
  revert i; induction l as [|a l IH]; intros [|i] H; simpl in *;
    try discriminate.
  - congruence.
  - f_equal. apply IH, H.
Qed.

End SeriesFacts.

(** ** Facts about [take], [dropna] and the sort *)

Section SortFacts.

Lemma take_cons {A} (i : nat) (idx : list nat) (l : list A) :
  take (i :: idx) l =
  match nth_error l i with Some x => [x] | None => [] end ++ take idx l.
Proof. reflexivity. Qed.

Lemma take_seq_from {A} (l pre : list A) :
  take (seq (List.length pre) (List.length l)) (pre ++ l) = l.
Proof.
  revert pre; induction l as [|a l IH]; intros pre; [reflexivity|].
  cbn [List.length seq]. rewrite take_cons.
  rewrite nth_error_app2, Nat.sub_diag by lia. cbn [nth_error app].
  f_equal.
  replace (pre ++ a :: l) with ((pre ++ [a]) ++ l)
    by (rewrite <- app_assoc; reflexivity).
  replace (S (List.length pre)) with (List.length (pre ++ [a]))
    by (rewrite length_app; simpl; lia).
  apply IH.
Qed.

Lemma take_seq {A} (l : list A) : take (seq 0 (List.length l)) l = l.
Proof. exact (take_seq_from l []). Qed.

(** Taking the rows along a permutation of the positions permutes them. *)
Lemma take_Permutation {A} (idx : list nat) (l : list A) :
  Permutation idx (seq 0 (List.length l)) -> Permutation (take idx l) l.
Proof.
  intros H. rewrite <- (take_seq l) at 2.
  unfold take. apply Permutation_flat_map, H.
Qed.

Lemma filter_split_Permutation {A} (p : A -> bool) (l : list A) :
  Permutation (filter p l ++ filter (fun x => negb (p x)) l) l.
Proof.
  induction l as [|a l IH]; simpl; [constructor|].
  destruct (p a); simpl.
  - constructor; exact IH.
  - apply Permutation_sym, Permutation_cons_app, Permutation_sym, IH.
Qed.

Lemma dropna_app {A} (l l' : list (option A)) :
  dropna (l ++ l') = dropna l ++ dropna l'.
Proof. apply flat_map_app. Qed.

Section Keys.

Context {A K : Type} (key : A -> option K).

(** The kept rows and the kept keys are aligned. *)
Lemma nth_error_notna_rows (rs : list A) (i : nat) :
  option_map key (nth_error (filter (fun r => notna (key r)) rs) i) =
  option_map Some (nth_error (dropna (map key rs)) i).
Proof.
  revert i; induction rs as [|r rs IH]; intros i.
  - destruct i; reflexivity.
  - simpl. unfold notna, isna. destruct (key r) as [k|] eqn:E; simpl.
    + destruct i as [|i]; simpl; [rewrite E; reflexivity | apply IH].
    + apply IH.
Qed.

Lemma dropna_take_notna (rs : list A) (idx : list nat) :
  dropna (map key (take idx (filter (fun r => notna (key r)) rs))) =
  take idx (dropna (map key rs)).
Proof.
  induction idx as [|i idx IH]; [reflexivity|].
  rewrite !take_cons, map_app, dropna_app, IH. f_equal.
  pose proof (nth_error_notna_rows rs i) as H.
  destruct (nth_error (filter _ rs) i) as [r|];
    destruct (nth_error (dropna (map key rs)) i) as [k|];
    simpl in H; try discriminate; [|reflexivity].
  injection H as H. simpl. rewrite H. reflexivity.
Qed.

Lemma dropna_isna_rows (rs : list A) :
  dropna (map key (filter (fun r => isna (key r)) rs)) = [].
Proof.
  induction rs as [|r rs IH]; [reflexivity|].
  simpl. destruct (key r) as [k|] eqn:E; simpl; [exact IH|].
  rewrite E. exact IH.
Qed.

Lemma Forall_notna_rows (rs : list A) :
  Forall (fun r => isna (key r) = false)
         (filter (fun r => notna (key r)) rs).
Proof.
  apply Forall_forall. intros r H. apply filter_In in H.
  destruct H as [_ H]. unfold notna in H.
  destruct (isna (key r)); [discriminate | reflexivity].
Qed.

End Keys.

Lemma Forall_take {A} (P : A -> Prop) (idx : list nat) (l : list A) :
  Forall P l -> Forall P (take idx l).
Proof.
  intros H. induction idx as [|i idx IH]; [constructor|].
  rewrite take_cons. apply Forall_app; split; [|exact IH].
  destruct (nth_error l i) as [x|] eqn:E; [|constructor].
  constructor; [|constructor].
  rewrite Forall_forall in H. apply H. eapply nth_error_In, E.
Qed.

Lemma Sorted_le_StronglySorted (l : list Z) :
  Sorted Z.le l -> StronglySorted Z.le l.
Proof.
  apply Sorted_StronglySorted. intros x y z. apply Z.le_trans.
Qed.

End SortFacts.

(** ** The insertion argsort meets the argsort contract, with either
       treatment of equal keys *)

Section InsertionArgsort.

Variable rev_ties : bool.

Lemma goes_before_le (x y : Z) :
  goes_before rev_ties x y = true -> (x <= y)%Z.
Proof. unfold goes_before; destruct rev_ties; lia. Qed.

Lemma goes_before_ge (x y : Z) :
  goes_before rev_ties x y = false -> (y <= x)%Z.
Proof. unfold goes_before; destruct rev_ties; lia. Qed.

Lemma insert_key_Permutation (x : Z * nat) (l : list (Z * nat)) :
  Permutation (insert_key rev_ties x l) (x :: l).
Proof.
  induction l as [|y t IH]; simpl; [reflexivity|].
  destruct (goes_before rev_ties (fst x) (fst y)); [reflexivity|].
  rewrite IH. apply perm_swap.
Qed.

Lemma isort_Permutation (l : list (Z * nat)) :
  Permutation (fold_right (insert_key rev_ties) [] l) l.
Proof.
  induction l as [|x l IH]; simpl; [constructor|].
  rewrite insert_key_Permutation. constructor; exact IH.
Qed.

Lemma insert_key_HdRel (x y : Z * nat) (t : list (Z * nat)) :
  key_le y x -> HdRel key_le y t ->
  HdRel key_le y (insert_key rev_ties x t).
Proof.
  intros Hyx Ht. destruct t as [|z t]; simpl; [constructor; exact Hyx|].
  destruct (goes_before rev_ties (fst x) (fst z)); constructor;
    [exact Hyx | inversion Ht; assumption].
Qed.

Lemma insert_key_Sorted (x : Z * nat) (l : list (Z * nat)) :
  Sorted key_le l -> Sorted key_le (insert_key rev_ties x l).
Proof.
  induction l as [|y t IH]; intros Hs; simpl.
  - repeat constructor.
  - destruct (goes_before rev_ties (fst x) (fst y)) eqn:E.
    + constructor; [exact Hs|]. constructor.
      apply goes_before_le, E.
    + inversion Hs as [|? ? Ht Hy]; subst.
      constructor; [apply IH, Ht|].
      apply insert_key_HdRel; [apply goes_before_ge, E | exact Hy].
Qed.

Lemma isort_Sorted (l : list (Z * nat)) :
  Sorted key_le (fold_right (insert_key rev_ties) [] l).
Proof.
  induction l as [|x l IH]; simpl; [constructor|].
  apply insert_key_Sorted, IH.
Qed.

Lemma Sorted_map_fst (l : list (Z * nat)) :
  Sorted key_le l -> Sorted Z.le (map fst l).
Proof.
  induction 1 as [|a l Hs IH Hd]; simpl; constructor; [exact IH|].
  destruct Hd; simpl; constructor; assumption.
Qed.

Lemma map_snd_combine {A B} (l : list A) (l' : list B) :
  List.length l = List.length l' -> map snd (combine l l') = l'.
Proof.
  revert l'; induction l as [|a l IH]; intros [|b l'] H; simpl in *;
    try discriminate; [reflexivity|].
  f_equal; apply IH; congruence.
Qed.

Lemma In_combine_seq {A} (l : list A) (s : nat) (k : A) (i : nat) :
  In (k, i) (combine l (seq s (List.length l))) ->
  (s <= i)%nat /\ nth_error l (i - s)%nat = Some k.
Proof.
  revert s; induction l as [|a l IH]; intros s H; simpl in H; [tauto|].
  destruct H as [H|H].
  - injection H as -> ->. rewrite Nat.sub_diag. split; [lia | reflexivity].
  - apply IH in H. destruct H as [Hle H]. split; [lia|].
    replace (i - s)%nat with (S (i - S s)) by lia. exact H.
Qed.

Lemma take_map_snd (ks : list Z) (ps : list (Z * nat)) :
  (forall k i, In (k, i) ps -> nth_error ks i = Some k) ->
  take (map snd ps) ks = map fst ps.
Proof.
  induction ps as [|[k i] ps IH]; intros H; [reflexivity|].
  cbn [map snd fst]. rewrite take_cons, (H k i) by (left; reflexivity).
  simpl. f_equal. apply IH. intros k' i' Hin. apply H. right; exact Hin.
Qed.

Lemma insertion_argsort_ok : argsort_ok (insertion_argsort rev_ties).
Proof.
  intros ks. unfold insertion_argsort.
  set (ps := combine ks (seq 0 (List.length ks))).
  split.
  - rewrite (isort_Permutation ps). unfold ps.
    rewrite map_snd_combine by (rewrite length_seq; reflexivity).
    reflexivity.
  - rewrite take_map_snd.
    + apply Sorted_map_fst, isort_Sorted.
    + intros k i Hin.
      apply (Permutation_in _ (isort_Permutation ps)) in Hin.
      apply In_combine_seq in Hin. destruct Hin as [_ Hin].
      rewrite Nat.sub_0_r in Hin. exact Hin.
Qed.

End InsertionArgsort.

(** ** Facts about the frame *)

Section FrameFacts.

Variable to_datetime : string -> option Z.
Variable argsort : list Z -> list nat.
Variable cfg : config.

Local Abbreviation frame := (load_frame to_datetime).
Local Abbreviation sorted := (sort_by_exit_time argsort).
Local Abbreviation with_no_spread := (add_no_spread cfg).
Local Abbreviation derived := (derive to_datetime argsort cfg).

Lemma key_if_existsb {A} (n m : string) (c : cell A) :
  existsb (String.eqb n) (key_if m c) = (String.eqb n m && present c)%bool.
Proof.
  unfold key_if. destruct (present c); simpl;
    [rewrite orb_false_r, andb_true_r | rewrite andb_false_r]; reflexivity.
Qed.

(** A column is in the frame when some record has the key. *)
Lemma in_columns_load_frame (name : string) (trades : list (trade string)) :
  in_columns name (frame trades) =
  existsb (fun r => existsb (String.eqb name) (keys r)) trades.
Proof.
  unfold in_columns; simpl. apply eq_true_iff_eq.
  rewrite !existsb_exists. split.
  - intros [c [Hin Hc]]. apply nodup_In, in_flat_map in Hin.
    destruct Hin as [r [Hr Hk]]. exists r. split; [exact Hr|].
    apply existsb_exists. exists c. split; assumption.
  - intros [r [Hr Hk]]. apply existsb_exists in Hk.
    destruct Hk as [c [Hk Hc]]. exists c. split; [|exact Hc].
    apply nodup_In, in_flat_map. exists r. split; assumption.
Qed.

Lemma columns_sort_by_exit_time (df : DataFrame) :
  columns (sorted df) = columns df.
Proof.
  unfold sort_by_exit_time.
  destruct (in_columns "exit_time" df); reflexivity.
Qed.

Lemma columns_add_no_spread (df : DataFrame) :
  columns (with_no_spread df) = columns df.
Proof.
  unfold add_no_spread.
  destruct (issubset no_spread_cols df); reflexivity.
Qed.

Lemma rows_add_no_spread (df : DataFrame) :
  rows (with_no_spread df) = rows df.
Proof.
  unfold add_no_spread.
  destruct (issubset no_spread_cols df); reflexivity.
Qed.

Lemma in_columns_derive (name : string) (trades : list (trade string)) :
  in_columns name (derived trades) =
  existsb (fun r => existsb (String.eqb name) (keys r)) trades.
Proof.
  rewrite <- in_columns_load_frame. unfold in_columns, derive.
  rewrite columns_add_no_spread, columns_sort_by_exit_time. reflexivity.
Qed.

Lemma pnl_no_spread_sorted (trades : list (trade string)) :
  pnl_no_spread (sorted (frame trades)) = None.
Proof.
  unfold sort_by_exit_time.
  destruct (in_columns "exit_time" (frame trades)); reflexivity.
Qed.

Lemma capital_no_spread_sorted (trades : list (trade string)) :
  capital_no_spread (sorted (frame trades)) = None.
Proof.
  unfold sort_by_exit_time.
  destruct (in_columns "exit_time" (frame trades)); reflexivity.
Qed.

(** The gate of the no-spread columns, read on the derived frame. *)
Lemma derive_no_spread_cases (trades : list (trade string)) :
  let df := sorted (frame trades) in
  (issubset no_spread_cols df = true /\
   exists pnl,
     pnl_no_spread (derived trades) = Some pnl /\
     capital_no_spread (derived trades) =
     Some (scalar_add (INITIAL_CAPITAL cfg) (cumsum pnl)) /\
     forall i,
       nth_error pnl i =
       option_map spec_no_spread_pnl (nth_error (rows df) i))
  \/
  (issubset no_spread_cols df = false /\
   pnl_no_spread (derived trades) = None /\
   capital_no_spread (derived trades) = None).
Proof.
  intros df. unfold derive. fold df.
  unfold add_no_spread.
  destruct (issubset no_spread_cols df) eqn:E.
  - left. split; [reflexivity|]. eexists. split; [reflexivity|].
    split; [reflexivity|]. intros i.
    unfold mul, sub, add, fillna, map_dict, col.
    rewrite !nth_error_map2, !nth_error_map.
    destruct (nth_error (rows df) i) as [r|]; [|reflexivity].
    cbn [option_map]. unfold spec_no_spread_pnl, spec_sign, spec_slippage.
    f_equal.
    destruct (direction r) as [| |d]; cbn [value lookup direction_sign];
      [| |destruct (String.eqb d "LONG");
          [|destruct (String.eqb d "SHORT")]];
      destruct (slippage_entry r), (slippage_exit r),
        (mid_price_entry r), (mid_price_exit r), (position_size r);
      reflexivity.
  - right. split; [reflexivity|].
    unfold df. rewrite pnl_no_spread_sorted, capital_no_spread_sorted.
    split; reflexivity.
Qed.

End FrameFacts.

(** ** Facts about the blocks of a run *)

Section Blocks.

Variable cfg : config.
Variables output_dir prefix : string.
Variable df : DataFrame.

Lemma saved_app (l l' : list event) : saved (l ++ l') = saved l ++ saved l'.
Proof. apply flat_map_app. Qed.

Lemma trace_Done (out : list event) (bs : list block) :
  trace (Done out :: bs) = out ++ trace bs.
Proof. reflexivity. Qed.

Lemma apply_bar_color_floats (l : series) :
  apply bar_color (map PyFloat l) =
  inr (map (fun v => if gt0 v then green else red) l).
Proof.
  induction l as [|v l IH]; [reflexivity|].
  cbn [map apply bar_color]. rewrite IH. reflexivity.
Qed.

Lemma apply_bar_color_nulls {A} (l : list A) :
  l <> [] -> apply bar_color (map (fun _ => PyNone) l) = inl TypeError.
Proof. destruct l; [contradiction | reflexivity]. Qed.

(** Chart 2 either raises [TypeError], on a net_pnl column that holds only
    nulls, or draws one bar per row, coloured by [x > 0]. *)
Lemma pnl_per_trade_chart_cases :
  (pnl_per_trade_chart output_dir prefix df = Raised TypeError /\
   in_columns "net_pnl" df = true /\
   rows df <> [] /\
   forall r, In r (rows df) -> net_pnl r = Null) \/
  pnl_per_trade_chart output_dir prefix df =
  Done (if in_columns "net_pnl" df
        then save output_dir prefix "_pnl_per_trade.png"
                  (PnlPerTrade
                     (col net_pnl df)
                     (map (fun v => if gt0 v then green else red)
                          (col net_pnl df)))
        else []).
Proof.
  unfold pnl_per_trade_chart, net_pnl_objects.
  destruct (in_columns "net_pnl" df); [|right; reflexivity].
  destruct (forallb (fun r => is_null (net_pnl r)) (rows df)) eqn:E.
  - destruct (rows df) as [|r rs] eqn:Er.
    + right. unfold col. rewrite Er. reflexivity.
    + left. rewrite apply_bar_color_nulls by discriminate.
      repeat split; [discriminate|].
      intros r' Hr'. rewrite forallb_forall in E. specialize (E r' Hr').
      destruct (net_pnl r'); try discriminate. reflexivity.
  - right. rewrite apply_bar_color_floats. reflexivity.
Qed.

Lemma missing_keys_In (hue : list (option string)) (d : string) :
  In d (missing_keys hue) ->
  In (Some d) hue /\ d <> "LONG"%string /\ d <> "SHORT"%string.
Proof.
  unfold missing_keys, palette. rewrite filter_In. intros [Hd Hp].
  split.
  - unfold dropna in Hd. apply in_flat_map in Hd.
    destruct Hd as [[x|] [Hx Hin]]; [|contradiction].
    destruct Hin as [<- | []]. exact Hx.
  - cbn [existsb] in Hp. rewrite orb_false_r in Hp.
    apply negb_true_iff, orb_false_iff in Hp. destruct Hp as [HL HS].
    split; intros ->; [rewrite String.eqb_refl in HL
                      | rewrite String.eqb_refl in HS]; discriminate.
Qed.

(** Chart 3 either raises [ValueError], on a direction that the palette
    does not list, or draws the scatter. *)
Lemma pnl_over_time_chart_cases :
  (pnl_over_time_chart output_dir prefix df = Raised ValueError /\
   in_columns "exit_time" df = true /\
   in_columns "net_pnl" df = true /\
   in_columns "direction" df = true /\
   exists (r : trade Z) (d : string),
     In r (rows df) /\ direction r = Val d /\
     d <> "LONG"%string /\ d <> "SHORT"%string) \/
  pnl_over_time_chart output_dir prefix df =
  Done (if (in_columns "exit_time" df && in_columns "net_pnl" df)%bool
        then save output_dir prefix "_pnl_over_time.png"
                  (PnlOverTime (col exit_time df) (col net_pnl df)
                               (if in_columns "direction" df
                                then Some (col direction df)
                                else None))
        else []).
Proof.
  unfold pnl_over_time_chart.
  destruct (in_columns "exit_time" df); [|right; reflexivity].
  destruct (in_columns "net_pnl" df); [|right; reflexivity].
  destruct (in_columns "direction" df); [|right; reflexivity].
  cbn [andb].
  destruct (missing_keys (col direction df)) as [|d ds] eqn:E;
    [right; reflexivity|].
  left. repeat split.
  destruct (missing_keys_In (col direction df) d) as [Hin [HL HS]];
    [rewrite E; left; reflexivity|].
  unfold col in Hin. apply in_map_iff in Hin. destruct Hin as [r [Hv Hr]].
  exists r, d. repeat split; try assumption.
  destruct (direction r); try discriminate.
  cbn in Hv. injection Hv as ->. reflexivity.
Qed.

(** The kinds saved by the charts: the first two charts by their gates, the
    last three as far as the run gets. *)
Lemma saved_charts_blocks :
  saved (charts cfg output_dir prefix df) =
  (if (in_columns "exit_time" df && in_columns "capital_after_exit" df)%bool
   then [equity_curve] else [])
  ++ (if (in_columns "exit_time" df && in_columns "capital_after_exit" df
          && in_columns "mid_price_exit" df
          && is_some (buy_hold_capital cfg df))%bool
      then [equity_vs_buyhold] else [])
  ++ saved (trace [pnl_per_trade_chart output_dir prefix df;
                   pnl_over_time_chart output_dir prefix df;
                   Done (pnl_distribution_chart output_dir prefix df)]).
Proof.
  unfold charts, chart_blocks. rewrite !trace_Done.
  rewrite !saved_app.
  f_equal; [|f_equal].
  - unfold equity_curve_chart.
    destruct (in_columns "exit_time" df && in_columns "capital_after_exit" df)%bool;
      reflexivity.
  - unfold equity_vs_buyhold_chart.
    destruct (in_columns "exit_time" df && in_columns "capital_after_exit" df
              && in_columns "mid_price_exit" df)%bool; [|reflexivity].
    destruct (buy_hold_capital cfg df); reflexivity.
Qed.



(** How the three PnL charts end: all three complete, chart 2 raises, or
    chart 3 raises after chart 2 is saved. *)
Lemma pnl_blocks_cases :
  let bs := [pnl_per_trade_chart output_dir prefix df;
             pnl_over_time_chart output_dir prefix df;
             Done (pnl_distribution_chart output_dir prefix df)] in
  (raised bs = None /\
   saved (trace bs) =
   (if in_columns "net_pnl" df then [pnl_per_trade] else [])
   ++ (if (in_columns "exit_time" df && in_columns "net_pnl" df)%bool
       then [pnl_over_time] else [])
   ++ (if in_columns "net_pnl" df then [pnl_distribution] else []))
  \/
  (raised bs = Some TypeError /\
   saved (trace bs) = [] /\
   in_columns "net_pnl" df = true /\
   rows df <> [] /\
   forall r, In r (rows df) -> net_pnl r = Null)
  \/
  (raised bs = Some ValueError /\
   saved (trace bs) = [pnl_per_trade] /\
   in_columns "exit_time" df = true /\
   in_columns "net_pnl" df = true /\
   in_columns "direction" df = true /\
   exists (r : trade Z) (d : string),
     In r (rows df) /\ direction r = Val d /\
     d <> "LONG"%string /\ d <> "SHORT"%string).
Proof.
  intros bs. unfold bs.
  destruct (pnl_per_trade_chart_cases) as [[-> H] | ->].
  { right; left. split; [reflexivity|]. split; [reflexivity | exact H]. }
  destruct (pnl_over_time_chart_cases) as [[-> [H1 [H2 H]]] | ->].
  { right; right. rewrite H2. split; [reflexivity|]. split; [reflexivity|].
    split; [exact H1|]. split; [reflexivity | exact H]. }
  left. split; [reflexivity|].
  cbn [trace]. rewrite !saved_app, app_nil_r. unfold pnl_distribution_chart.
  destruct (in_columns "exit_time" df), (in_columns "net_pnl" df);
    reflexivity.
Qed.

(** No chart is saved twice, and the charts come in program order. *)
Lemma saved_charts_subsequence :
  exists b1 b1b b2 b3 b4 : bool,
    saved (charts cfg output_dir prefix df) =
    (if b1 then [equity_curve] else [])
    ++ (if b1b then [equity_vs_buyhold] else [])
    ++ (if b2 then [pnl_per_trade] else [])
    ++ (if b3 then [pnl_over_time] else [])
    ++ (if b4 then [pnl_distribution] else []).
Proof.
  rewrite saved_charts_blocks.
  exists (in_columns "exit_time" df && in_columns "capital_after_exit" df)%bool,
    (in_columns "exit_time" df && in_columns "capital_after_exit" df
     && in_columns "mid_price_exit" df
     && is_some (buy_hold_capital cfg df))%bool.
  destruct pnl_blocks_cases as [[_ ->] | [[_ [-> _]] | [_ [-> _]]]].
  - exists (in_columns "net_pnl" df),
      (in_columns "exit_time" df && in_columns "net_pnl" df)%bool,
      (in_columns "net_pnl" df). reflexivity.
  - exists false, false, false. reflexivity.
  - exists true, false, false. reflexivity.
Qed.

End Blocks.

(** ** The claims *)

Section Claims.

Variable to_datetime : string -> option Z.
Variable argsort : list Z -> list nat.
Variable cfg : config.

Local Abbreviation frame := (load_frame to_datetime).
Local Abbreviation derived := (derive to_datetime argsort cfg).

Lemma rows_derive (trades : list (trade string)) :
  rows (derived trades) =
  rows (sort_by_exit_time argsort (frame trades)).
Proof. apply rows_add_no_spread. Qed.

Lemma nth_error_scalar_add (c : Qc) (s : series) (i : nat) :
  nth_error (scalar_add c s) i =
  option_map (option_map (fun x => c + x)) (nth_error s i).
Proof. apply nth_error_map. Qed.

Lemma length_of_nth_error {A B} (f : A -> B) (l : list B) (l' : list A) :
  (forall i, nth_error l i = option_map f (nth_error l' i)) ->
  List.length l = List.length l'.
Proof.
  intros H. apply Nat.le_antisymm.
  - apply nth_error_None. rewrite H.
    replace (nth_error l' (List.length l')) with (@None A);
      [reflexivity | symmetry; apply nth_error_None; lia].
  - apply nth_error_None.
    pose proof (H (List.length l)) as Hl.
    replace (nth_error l (List.length l)) with (@None B) in Hl
      by (symmetry; apply nth_error_None; lia).
    destruct (nth_error l' (List.length l)); [discriminate | reflexivity].
Qed.

(** C1.  Whenever the no-spread PnL column is computed, its entry for the
    record at position [i] of the sorted frame is
    ((mid_price_exit - sign * slippage_exit)
      - (mid_price_entry + sign * slippage_entry)) * sign * position_size,
    with sign +1 for LONG, -1 for SHORT and 0 otherwise and a missing
    slippage read as 0.  The two worked examples of the specification give
    20 and 10. *)
Theorem no_spread_pnl_per_trade :
  (forall (trades : list (trade string)) (pnl : series),
      pnl_no_spread (derived trades) = Some pnl ->
      List.length pnl = List.length (rows (derived trades)) /\
      forall (i : nat) (r : trade Z),
        nth_error (rows (derived trades)) i = Some r ->
        nth_error pnl i = Some (spec_no_spread_pnl r)) /\
  pnl_no_spread (derived [long_example]) = Some [Some (Qz 20)] /\
  pnl_no_spread (derived [short_example]) = Some [Some (Qz 10)].
Proof.
  split; [|split; reflexivity].
  intros trades pnl Hpnl.
  destruct (derive_no_spread_cases to_datetime argsort cfg trades)
    as [[_ [pnl' [H1 [_ Hnth]]]] | [_ [H1 _]]]; [|congruence].
  assert (pnl' = pnl) by congruence; subst pnl'.
  rewrite rows_derive. split.
  - apply (length_of_nth_error spec_no_spread_pnl), Hnth.
  - intros i r Hr. rewrite Hnth, Hr. reflexivity.
Qed.

(** C2 (amended).  Whenever the no-spread capital column is computed, it has
    one entry per entry of the PnL column; the entry at [i] is missing where
    the PnL at [i] is missing, and is otherwise the initial capital plus the
    sum of the PnL entries of rows 0..i that are not missing.  Where no PnL
    of rows 0..i is missing this is the running sum of the specification,
    initial_capital + sum(no_spread_pnl[0..i]). *)
Theorem capital_no_spread_running_sum :
  forall (trades : list (trade string)) (pnl cap : series),
    pnl_no_spread (derived trades) = Some pnl ->
    capital_no_spread (derived trades) = Some cap ->
    List.length cap = List.length pnl /\
    forall (i : nat) (p : option Qc),
      nth_error pnl i = Some p ->
      nth_error cap i =
      Some (match p with
            | Some _ =>
                Some (INITIAL_CAPITAL cfg + sum_notna (firstn (S i) pnl))
            | None => None
            end) /\
      (forallb notna (firstn (S i) pnl) = true ->
       nth_error cap i =
       Some (spec_capital_no_spread (INITIAL_CAPITAL cfg) pnl i)).
Proof.
  intros trades pnl cap Hpnl Hcap.
  destruct (derive_no_spread_cases to_datetime argsort cfg trades)
    as [[_ [pnl' [H1 [H2 _]]]] | [_ [H1 _]]]; [|congruence].
  assert (pnl' = pnl) by congruence; subst pnl'.
  assert (cap = scalar_add (INITIAL_CAPITAL cfg) (cumsum pnl))
    by congruence; subst cap.
  split.
  - unfold scalar_add. rewrite length_map. apply length_cumsum.
  - intros i p Hp.
    assert (Hcum : nth_error (scalar_add (INITIAL_CAPITAL cfg) (cumsum pnl)) i
                   = Some (match p with
                           | Some _ =>
                               Some (INITIAL_CAPITAL cfg
                                     + sum_notna (firstn (S i) pnl))
                           | None => None
                           end)).
    { rewrite nth_error_scalar_add, nth_error_cumsum, Hp.
      destruct p; reflexivity. }
    split; [exact Hcum|].
    intros Hall. rewrite Hcum.
    unfold spec_capital_no_spread.
    rewrite (spec_sum_all_defined _ Hall).
    rewrite (firstn_S_nth_error _ _ _ Hp), forallb_app in Hall.
    apply andb_true_iff in Hall. destruct Hall as [_ Hall].
    destruct p; [reflexivity | discriminate].
Qed.

(** *** Columns of the frame and keys of the records *)

Lemma existsb_pointwise {A} (f g : A -> bool) (l : list A) :
  (forall x, f x = g x) -> existsb f l = existsb g l.
Proof.
  intros H. induction l as [|a l IH]; simpl; [reflexivity|].
  rewrite H, IH. reflexivity.
Qed.

Ltac key_of_field :=
  intros; unfold keys; rewrite !existsb_app, !key_if_existsb; cbn;
  rewrite ?orb_false_r; reflexivity.

Lemma key_exit_time {T} (r : trade T) :
  existsb (String.eqb "exit_time") (keys r) = present (exit_time r).
Proof. key_of_field. Qed.

Lemma key_mid_price_entry {T} (r : trade T) :
  existsb (String.eqb "mid_price_entry") (keys r) =
  present (mid_price_entry r).
Proof. key_of_field. Qed.

Lemma key_mid_price_exit {T} (r : trade T) :
  existsb (String.eqb "mid_price_exit") (keys r) = present (mid_price_exit r).
Proof. key_of_field. Qed.

Lemma key_position_size {T} (r : trade T) :
  existsb (String.eqb "position_size") (keys r) = present (position_size r).
Proof. key_of_field. Qed.

Lemma key_direction {T} (r : trade T) :
  existsb (String.eqb "direction") (keys r) = present (direction r).
Proof. key_of_field. Qed.

Lemma key_slippage_entry {T} (r : trade T) :
  existsb (String.eqb "slippage_entry") (keys r) = present (slippage_entry r).
Proof. key_of_field. Qed.

Lemma key_slippage_exit {T} (r : trade T) :
  existsb (String.eqb "slippage_exit") (keys r) = present (slippage_exit r).
Proof. key_of_field. Qed.

Lemma key_capital_after_exit {T} (r : trade T) :
  existsb (String.eqb "capital_after_exit") (keys r) =
  present (capital_after_exit r).
Proof. key_of_field. Qed.

Lemma key_net_pnl {T} (r : trade T) :
  existsb (String.eqb "net_pnl") (keys r) = present (net_pnl r).
Proof. key_of_field. Qed.

(** Each gate of the function, read on the records of the file. *)
Lemma column_exit_time (trades : list (trade string)) :
  in_columns "exit_time" (derived trades) = some_record_has exit_time trades.
Proof.
  rewrite in_columns_derive. apply existsb_pointwise, key_exit_time.
Qed.

Lemma column_capital_after_exit (trades : list (trade string)) :
  in_columns "capital_after_exit" (derived trades) =
  some_record_has capital_after_exit trades.
Proof.
  rewrite in_columns_derive. apply existsb_pointwise, key_capital_after_exit.
Qed.

Lemma column_mid_price_exit (trades : list (trade string)) :
  in_columns "mid_price_exit" (derived trades) =
  some_record_has mid_price_exit trades.
Proof.
  rewrite in_columns_derive. apply existsb_pointwise, key_mid_price_exit.
Qed.

Lemma column_net_pnl (trades : list (trade string)) :
  in_columns "net_pnl" (derived trades) = some_record_has net_pnl trades.
Proof.
  rewrite in_columns_derive. apply existsb_pointwise, key_net_pnl.
Qed.

(** *** The sort *)

Lemma length_dropna_notna {A K} (key : A -> option K) (rs : list A) :
  List.length (dropna (map key rs)) =
  List.length (filter (fun r => notna (key r)) rs).
Proof.
  induction rs as [|r rs IH]; [reflexivity|].
  cbn [map dropna flat_map filter]. unfold notna at 1, isna at 1.
  destruct (key r); cbn [negb app List.length]; [f_equal|]; exact IH.
Qed.

Lemma filter_all {A} (p : A -> bool) (l : list A) :
  (forall x, In x l -> p x = true) -> filter p l = l.
Proof.
  intros H. apply forallb_filter_id, forallb_forall, H.
Qed.

(** Without an [exit_time] key in any record, every row of the frame has a
    missing exit time. *)
Lemma no_exit_time_column (trades : list (trade string)) :
  in_columns "exit_time" (frame trades) = false ->
  forall r, In r (rows (frame trades)) -> missing_exit_time r = true.
Proof.
  rewrite in_columns_load_frame. intros H r Hin.
  simpl in Hin. apply in_map_iff in Hin. destruct Hin as [t [<- Hin]].
  assert (Ht : present (exit_time t) = false).
  { rewrite <- key_exit_time.
    destruct (existsb (String.eqb "exit_time") (keys t)) eqn:E;
      [|reflexivity].
    rewrite <- H. symmetry. apply existsb_exists. exists t. tauto. }
  unfold missing_exit_time; simpl.
  destruct (exit_time t); [reflexivity | reflexivity | discriminate].
Qed.

(** C3 (amended).  For an argsort that returns a permutation of the
    positions under which the keys ascend (all that the default sort kind
    promises), the rows after the sort are a rearrangement of the loaded
    rows; their defined exit times are non-decreasing; the rows without an
    exit time come last and keep their input order; and the sort is total.
    Nothing is promised about the order of rows with equal exit times. *)
Theorem sort_by_exit_time_ascending :
  argsort_ok argsort ->
  forall trades : list (trade string),
    let input := rows (frame trades) in
    let output := rows (derived trades) in
    Permutation output input /\
    StronglySorted Z.le (exit_times output) /\
    exists sorted : list (trade Z),
      output = sorted ++ filter missing_exit_time input /\
      Forall (fun r => missing_exit_time r = false) sorted.
Proof.
  intros Hok trades input output. unfold output. rewrite rows_derive.
  unfold sort_by_exit_time.
  destruct (in_columns "exit_time" (frame trades)) eqn:E.
  - cbn [rows sort_values_exit_time]. fold input.
    set (key := fun r : trade Z => value (exit_time r)).
    set (idx := argsort (dropna (col exit_time (frame trades)))).
    assert (Hidx : Permutation idx
                     (seq 0 (List.length
                               (filter (fun r => notna (key r)) input)))).
    { rewrite <- length_dropna_notna. apply Hok. }
    split; [|split].
    + eapply Permutation_trans;
        [|apply (filter_split_Permutation (fun r => notna (key r)) input)].
      apply Permutation_app; [apply take_Permutation, Hidx|].
      erewrite filter_ext; [reflexivity|].
      intros r. unfold notna. rewrite negb_involutive. reflexivity.
    + unfold exit_times. rewrite map_app, dropna_app.
      rewrite (dropna_take_notna key), (dropna_isna_rows key), app_nil_r.
      apply Sorted_le_StronglySorted, Hok.
    + exists (take idx (filter (fun r => notna (key r)) input)).
      split; [reflexivity|].
      apply Forall_take, (Forall_notna_rows key).
  - fold input.
    assert (Hall : filter missing_exit_time input = input)
      by (apply filter_all, no_exit_time_column, E).
    split; [reflexivity|]. split.
    + rewrite <- Hall. unfold exit_times, missing_exit_time.
      rewrite (dropna_isna_rows (fun r : trade Z => value (exit_time r))).
      constructor.
    + exists []. rewrite Hall. split; [reflexivity | constructor].
Qed.

(** *** Early return *)


(** The early returns raise nothing. *)
Lemma early_return_raises_nothing
      (fs : filesystem) (results_path output_dir : option string)
      (prefix : string) :
  let path := or_default results_path (BACKTEST_RESULTS_FILE cfg) in
  (fs path = None \/
   exists data,
     fs path = Some data /\
     (doc_trades data = Some [] \/ doc_trades data = None)) ->
  generate_backtest_plots_raises to_datetime argsort cfg fs results_path
                                 output_dir prefix = None.
Proof.
  intros path H.
  unfold generate_backtest_plots_raises, generate_backtest_plots_blocks.
  fold path.
  destruct H as [H | [data [H [Hd | Hd]]]]; rewrite H; try rewrite Hd;
    reflexivity.
Qed.

(** *** The benchmark *)

Lemma nonzero_true (b : Qc) : nonzero b = true -> b <> 0.
Proof.
  unfold nonzero, Qc_eq_bool. destruct (Qc_eq_dec b 0); [discriminate|].
  intros _; assumption.
Qed.

(** C5.  When the buy-and-hold benchmark is computed, its reference price
    is the mid_price_exit of the first row of the sorted frame, that price
    is not zero, and the benchmark at row [i] is
    initial_capital * (mid_price_exit[i] / reference_price) (missing where
    the price is missing).  The benchmark is a function of the
    mid_price_exit column alone: any frame with the same column has the same
    benchmark, whatever its trades, PnL and capital fields. *)
Theorem buy_hold_capital_formula :
  forall (trades : list (trade string)) (bh : series),
    let df := derived trades in
    buy_hold_capital cfg df = Some bh ->
    (exists (r0 : trade Z) (base : Qc),
        hd_error (rows df) = Some r0 /\
        value (mid_price_exit r0) = Some base /\
        base <> 0 /\
        forall (i : nat) (r : trade Z),
          nth_error (rows df) i = Some r ->
          nth_error bh i =
          Some (option_map (fun p => INITIAL_CAPITAL cfg * (p / base))
                           (value (mid_price_exit r)))) /\
    List.length bh = List.length (rows df) /\
    forall df' : DataFrame,
      col mid_price_exit df' = col mid_price_exit df ->
      buy_hold_capital cfg df' = Some bh.
Proof.
  intros trades bh df H. split; [|split].
  - unfold buy_hold_capital, base_price, col in H.
    destruct (rows df) as [|r0 rs] eqn:Erows; [discriminate|].
    cbn [map] in H.
    destruct (value (mid_price_exit r0)) as [b|] eqn:Eb; [|discriminate].
    destruct (nonzero b) eqn:Enz; [|discriminate].
    injection H as <-.
    exists r0, b. repeat split; [exact Eb | apply nonzero_true, Enz|].
    intros i r Hr. destruct i as [|i]; simpl in Hr.
    + injection Hr as <-. rewrite Eb. reflexivity.
    + unfold scalar_mul, div_scalar. cbn [nth_error].
      rewrite !nth_error_map, Hr. cbn [option_map].
      destruct (value (mid_price_exit r)); reflexivity.
  - unfold buy_hold_capital in H.
    destruct (base_price df) as [b|]; [|discriminate].
    destruct (nonzero b); [|discriminate]. injection H as <-.
    unfold scalar_mul, div_scalar, col. rewrite !length_map. reflexivity.
  - intros df' Hcol. rewrite <- H.
    unfold buy_hold_capital, base_price. rewrite Hcol. reflexivity.
Qed.

(** *** Which charts a run saves *)

Lemma in_columns_sorted (name : string) (df : DataFrame) :
  in_columns name (sort_by_exit_time argsort df) = in_columns name df.
Proof.
  unfold in_columns. rewrite columns_sort_by_exit_time. reflexivity.
Qed.

Lemma issubset_no_spread_cols (trades : list (trade string)) :
  issubset no_spread_cols (sort_by_exit_time argsort (frame trades)) =
  no_spread_columns_present trades.
Proof.
  unfold issubset, no_spread_cols. cbn [forallb].
  rewrite !in_columns_sorted, !in_columns_load_frame.
  unfold no_spread_columns_present, some_record_has.
  rewrite (existsb_pointwise _ _ trades key_mid_price_entry),
    (existsb_pointwise _ _ trades key_mid_price_exit),
    (existsb_pointwise _ _ trades key_position_size),
    (existsb_pointwise _ _ trades key_direction),
    (existsb_pointwise _ _ trades key_slippage_entry),
    (existsb_pointwise _ _ trades key_slippage_exit).
  rewrite andb_true_r, !andb_assoc. reflexivity.
Qed.

Lemma buy_hold_capital_degenerate (df : DataFrame) :
  base_price df = None \/ base_price df = Some 0 ->
  buy_hold_capital cfg df = None.
Proof.
  unfold buy_hold_capital. intros [-> | ->]; reflexivity.
Qed.

(** The call on a result file with at least one trade: its blocks, its
    trace and its exception. *)
Lemma generate_backtest_plots_blocks_runs
      (fs : filesystem) (results_path output_dir : option string)
      (prefix : string) (data : document) (trades : list (trade string)) :
  fs (or_default results_path (BACKTEST_RESULTS_FILE cfg)) = Some data ->
  doc_trades data = Some trades ->
  trades <> [] ->
  generate_backtest_plots_blocks to_datetime argsort cfg fs results_path
                                 output_dir prefix =
  Done [MakeDirs (or_default output_dir (LOGS_DIR cfg))]
  :: chart_blocks cfg (or_default output_dir (LOGS_DIR cfg)) prefix
                  (derived trades).
Proof.
  intros Hfs Hd Hne. unfold generate_backtest_plots_blocks. rewrite Hfs, Hd.
  destruct trades; [contradiction | reflexivity].
Qed.

Lemma generate_backtest_plots_runs
      (fs : filesystem) (results_path output_dir : option string)
      (prefix : string) (data : document) (trades : list (trade string)) :
  fs (or_default results_path (BACKTEST_RESULTS_FILE cfg)) = Some data ->
  doc_trades data = Some trades ->
  trades <> [] ->
  generate_backtest_plots to_datetime argsort cfg fs results_path output_dir
                          prefix =
  MakeDirs (or_default output_dir (LOGS_DIR cfg))
  :: charts cfg (or_default output_dir (LOGS_DIR cfg)) prefix
            (derived trades).
Proof.
  intros Hfs Hd Hne. unfold generate_backtest_plots.
  rewrite (generate_backtest_plots_blocks_runs _ _ _ _ _ _ Hfs Hd Hne).
  reflexivity.
Qed.

Lemma generate_backtest_plots_raises_runs
      (fs : filesystem) (results_path output_dir : option string)
      (prefix : string) (data : document) (trades : list (trade string)) :
  fs (or_default results_path (BACKTEST_RESULTS_FILE cfg)) = Some data ->
  doc_trades data = Some trades ->
  trades <> [] ->
  generate_backtest_plots_raises to_datetime argsort cfg fs results_path
                                 output_dir prefix =
  raised (chart_blocks cfg (or_default output_dir (LOGS_DIR cfg)) prefix
                       (derived trades)).
Proof.
  intros Hfs Hd Hne. unfold generate_backtest_plots_raises.
  rewrite (generate_backtest_plots_blocks_runs _ _ _ _ _ _ Hfs Hd Hne).
  reflexivity.
Qed.

(** The gate of the two no-spread columns. *)
Lemma no_spread_gate (trades : list (trade string)) :
  is_some (pnl_no_spread (derived trades)) = no_spread_columns_present trades
  /\
  is_some (capital_no_spread (derived trades)) =
  no_spread_columns_present trades.
Proof.
  rewrite <- issubset_no_spread_cols.
  destruct (derive_no_spread_cases to_datetime argsort cfg trades)
    as [[Hg [pnl [H1 [H2 _]]]] | [Hg [H1 H2]]]; rewrite Hg, H1, H2;
    split; reflexivity.
Qed.

(** C6.  When the reference price of the benchmark (mid_price_exit of the
    first sorted row) is missing or exactly zero, the benchmark is not
    computed, so nothing is divided by zero, and the block of the
    strategy-versus-buy-and-hold chart does nothing.  The call is the call
    of the four other charts: the same effects in the same order and the
    same exception, if one of them raises.  The no-spread series are
    computed under their own gate and by their own formula. *)
Theorem degenerate_benchmark_skips_one_chart :
  forall (fs : filesystem) (results_path output_dir : option string)
         (prefix : string) (data : document) (trades : list (trade string)),
    fs (or_default results_path (BACKTEST_RESULTS_FILE cfg)) = Some data ->
    doc_trades data = Some trades ->
    trades <> [] ->
    let df := derived trades in
    let dir := or_default output_dir (LOGS_DIR cfg) in
    let others :=
      [Done (equity_curve_chart dir prefix df);
       pnl_per_trade_chart dir prefix df;
       pnl_over_time_chart dir prefix df;
       Done (pnl_distribution_chart dir prefix df)] in
    base_price df = None \/ base_price df = Some 0 ->
    buy_hold_capital cfg df = None /\
    equity_vs_buyhold_chart cfg dir prefix df = [] /\
    generate_backtest_plots to_datetime argsort cfg fs results_path
                            output_dir prefix =
    MakeDirs dir :: trace others /\
    generate_backtest_plots_raises to_datetime argsort cfg fs results_path
                                   output_dir prefix =
    raised others /\
    is_saved equity_vs_buyhold
             (generate_backtest_plots to_datetime argsort cfg fs results_path
                                      output_dir prefix) = false /\
    is_some (pnl_no_spread df) = no_spread_columns_present trades /\
    is_some (capital_no_spread df) = no_spread_columns_present trades /\
    forall (pnl : series),
      pnl_no_spread df = Some pnl ->
      capital_no_spread df =
      Some (scalar_add (INITIAL_CAPITAL cfg) (cumsum pnl)) /\
      forall (i : nat) (r : trade Z),
        nth_error (rows df) i = Some r ->
        nth_error pnl i = Some (spec_no_spread_pnl r).
Proof.
  intros fs results_path output_dir prefix data trades Hfs Hd Hne df dir
         others Hb.
  pose proof (buy_hold_capital_degenerate df Hb) as Hbh.
  assert (Hskip : equity_vs_buyhold_chart cfg dir prefix df = []).
  { unfold equity_vs_buyhold_chart. rewrite Hbh.
    destruct (in_columns "exit_time" df && in_columns "capital_after_exit" df
              && in_columns "mid_price_exit" df)%bool; reflexivity. }
  rewrite (generate_backtest_plots_runs _ _ _ _ _ _ Hfs Hd Hne).
  rewrite (generate_backtest_plots_raises_runs _ _ _ _ _ _ Hfs Hd Hne).
  fold df dir.
  split; [exact Hbh|]. split; [exact Hskip|]. split; [|split; [|split]].
  - unfold charts, chart_blocks. rewrite Hskip. reflexivity.
  - reflexivity.
  - unfold is_saved. cbn [saved flat_map app].
    fold (saved (charts cfg dir prefix df)).
    rewrite saved_charts_blocks, Hbh, andb_false_r.
    destruct (in_columns "exit_time" df && in_columns "capital_after_exit" df)%bool;
      cbn [app];
      destruct (pnl_per_trade_chart_cases dir prefix df) as [[-> _] | ->];
      try reflexivity;
      destruct (pnl_over_time_chart_cases dir prefix df) as [[-> _] | ->];
      unfold pnl_distribution_chart;
      destruct (in_columns "exit_time" df), (in_columns "net_pnl" df);
      reflexivity.
  - destruct (no_spread_gate trades) as [G1 G2].
    split; [exact G1|]. split; [exact G2|].
    intros pnl Hpnl.
    destruct (derive_no_spread_cases to_datetime argsort cfg trades)
      as [[_ [pnl' [H1 [H2 Hnth]]]] | [_ [H1 _]]]; [|unfold df in Hpnl; congruence].
    assert (pnl' = pnl) by (unfold df in Hpnl; congruence); subst pnl'.
    split; [exact H2|].
    intros i r Hr. unfold df in Hr. rewrite rows_derive in Hr.
    rewrite Hnth, Hr. reflexivity.
Qed.

(** *** The gate of the no-spread series *)

Lemma spec_no_spread_pnl_missing {T} (r : trade T) :
  spec_no_spread_pnl r = None <->
  value (mid_price_entry r) = None \/ value (mid_price_exit r) = None
  \/ value (position_size r) = None.
Proof.
  unfold spec_no_spread_pnl.
  destruct (value (mid_price_entry r)), (value (mid_price_exit r)),
    (value (position_size r)); simpl; split; intros H;
    try discriminate; try reflexivity; try tauto;
    destruct H as [H | [H | H]]; discriminate.
Qed.

(** C7 (amended).  The no-spread PnL and capital columns are computed
    together, and exactly when each of mid_price_entry, mid_price_exit,
    position_size, direction, slippage_entry and slippage_exit is a key of at
    least one record of the trade set.  A record that lacks some of them
    does not disable the series: its own PnL entry is missing exactly when
    one of its two mid prices or its position size is missing. *)
Theorem no_spread_series_gate :
  forall trades : list (trade string),
    is_some (pnl_no_spread (derived trades)) =
    no_spread_columns_present trades /\
    is_some (capital_no_spread (derived trades)) =
    no_spread_columns_present trades /\
    forall (pnl : series) (i : nat) (r : trade Z),
      pnl_no_spread (derived trades) = Some pnl ->
      nth_error (rows (derived trades)) i = Some r ->
      (nth_error pnl i = Some None <->
       value (mid_price_entry r) = None \/ value (mid_price_exit r) = None
       \/ value (position_size r) = None).
Proof.
  intros trades. rewrite <- issubset_no_spread_cols.
  destruct (derive_no_spread_cases to_datetime argsort cfg trades)
    as [[Hg [pnl' [H1 [H2 Hnth]]]] | [Hg [H1 H2]]]; rewrite Hg, H1, H2.
  - split; [reflexivity|]. split; [reflexivity|].
    intros pnl i r Hpnl Hr. injection Hpnl as <-.
    rewrite rows_derive in Hr. rewrite Hnth, Hr. cbn [option_map].
    rewrite <- spec_no_spread_pnl_missing.
    split; [intros H; injection H as H; exact H | intros ->; reflexivity].
  - split; [reflexivity|]. split; [reflexivity|].
    intros pnl i r Hpnl. discriminate.
Qed.

(** *** Bar colours *)




(** *** Records with a neutral direction *)

Lemma spec_sign_neutral {T} (r : trade T) :
  direction r <> Val "LONG"%string -> direction r <> Val "SHORT"%string ->
  spec_sign r = 0.
Proof.
  intros HL HS. unfold spec_sign.
  destruct (direction r) as [| |d]; try reflexivity.
  destruct (String.eqb_spec d "LONG"); [subst; contradiction|].
  destruct (String.eqb_spec d "SHORT"); [subst; contradiction|].
  reflexivity.
Qed.

(** C10 (amended).  For a record whose direction is neither LONG nor SHORT
    (or is missing) and whose two mid prices and position size are present,
    the direction sign is 0 and the no-spread PnL is exactly 0, whatever
    the prices, the slippages and the size; the no-spread capital at that
    row is the initial capital plus the PnL of the earlier rows that is not
    missing: the initial capital at the first row, and the capital of the
    preceding row when that row has a PnL. *)
Theorem neutral_direction_no_spread_pnl :
  forall (trades : list (trade string)) (pnl cap : series) (i : nat)
         (r : trade Z) (pe px sz : Qc),
    pnl_no_spread (derived trades) = Some pnl ->
    capital_no_spread (derived trades) = Some cap ->
    nth_error (rows (derived trades)) i = Some r ->
    direction r <> Val "LONG"%string ->
    direction r <> Val "SHORT"%string ->
    value (mid_price_entry r) = Some pe ->
    value (mid_price_exit r) = Some px ->
    value (position_size r) = Some sz ->
    spec_sign r = 0 /\
    nth_error pnl i = Some (Some 0) /\
    nth_error cap i =
    Some (Some (INITIAL_CAPITAL cfg + sum_notna (firstn i pnl))) /\
    (i = 0%nat -> nth_error cap i = Some (Some (INITIAL_CAPITAL cfg))) /\
    (forall (j : nat) (q : Qc),
        i = S j -> nth_error pnl j = Some (Some q) ->
        nth_error cap i = nth_error cap j).
Proof.
  intros trades pnl cap i r pe px sz Hpnl Hcap Hr HL HS Hpe Hpx Hsz.
  pose proof (spec_sign_neutral r HL HS) as Hsign.
  destruct (derive_no_spread_cases to_datetime argsort cfg trades)
    as [[_ [pnl' [H1 [H2 Hnth]]]] | [_ [H1 _]]]; [|congruence].
  assert (pnl' = pnl) by congruence; subst pnl'.
  assert (cap = scalar_add (INITIAL_CAPITAL cfg) (cumsum pnl))
    by congruence; subst cap.
  rewrite rows_derive in Hr.
  assert (Hi : nth_error pnl i = Some (Some 0)).
  { rewrite Hnth, Hr. cbn [option_map]. unfold spec_no_spread_pnl.
    rewrite Hsign, Hpe, Hpx, Hsz. cbn [option_map lift2].
    do 2 f_equal. ring. }
  assert (Hcum : forall k q,
             nth_error pnl k = Some (Some q) ->
             nth_error (scalar_add (INITIAL_CAPITAL cfg) (cumsum pnl)) k =
             Some (Some (INITIAL_CAPITAL cfg
                         + (sum_notna (firstn k pnl) + q)))).
  { intros k q Hk.
    rewrite nth_error_scalar_add, nth_error_cumsum, Hk. cbn [option_map].
    rewrite (firstn_S_nth_error _ _ _ Hk), sum_notna_snoc. reflexivity. }
  assert (Hcap_i : nth_error (scalar_add (INITIAL_CAPITAL cfg) (cumsum pnl)) i
                   = Some (Some (INITIAL_CAPITAL cfg
                                 + sum_notna (firstn i pnl)))).
  { rewrite (Hcum i 0 Hi). do 2 f_equal. ring. }
  split; [exact Hsign|]. split; [exact Hi|]. split; [exact Hcap_i|]. split.
  - intros ->. rewrite Hcap_i. cbn [firstn sum_notna]. do 2 f_equal. ring.
  - intros j q -> Hj. rewrite Hcap_i, (Hcum j q Hj).
    rewrite (firstn_S_nth_error _ _ _ Hj), sum_notna_snoc. reflexivity.
Qed.

End Claims.

(** ** The claims on the sample data *)

(** C1 on two complete trades: the PnL column is computed, and its first
    entry is the formula applied to the first row by exit time. *)
Lemma no_spread_pnl_per_trade_witness :
  pnl_no_spread (sample_derive sample_trades)
  = Some [Some (Qz 10); Some (Qz 20)] /\
  exists r : trade Z,
    nth_error (rows (sample_derive sample_trades)) 0 = Some r /\
    nth_error [Some (Qz 10); Some (Qz 20)] 0 = Some (spec_no_spread_pnl r).
Proof.
  split; [reflexivity|].
  eexists. split; [reflexivity|].
  apply (proj1 (no_spread_pnl_per_trade parse_epoch (insertion_argsort false)
                                        sample_config)
               sample_trades [Some (Qz 10); Some (Qz 20)] eq_refl).
  reflexivity.
Defined.

(** C2 as stated fails when a PnL entry is missing.  The first trade has
    [position_size: null], so its PnL is missing and the second PnL is 10.
    The code gives a missing capital at row 0 and 10010 at row 1.  The
    claimed value at row 1, 10000 + (pnl[0] + pnl[1]), has a missing
    operand; and reading the sum as skipping missing entries would give
    10000 at row 0, where the code has no value. *)
Lemma capital_no_spread_missing_pnl_counterexample :
  let df := sample_derive missing_size_trades in
  exists pnl cap : series,
    pnl_no_spread df = Some pnl /\
    capital_no_spread df = Some cap /\
    ~ (forall i : nat,
          (i < List.length cap)%nat ->
          nth_error cap i =
          Some (spec_capital_no_spread (INITIAL_CAPITAL sample_config) pnl i))
    /\
    ~ (forall i : nat,
          (i < List.length cap)%nat ->
          nth_error cap i =
          Some (Some (INITIAL_CAPITAL sample_config
                      + sum_notna (firstn (S i) pnl)))).
Proof.
  exists [None; Some (Qz 10)], [None; Some (Qz 10010)].
  split; [reflexivity|]. split; [reflexivity|]. split; intros H.
  - specialize (H 1%nat ltac:(simpl; lia)). vm_compute in H. discriminate.
  - specialize (H 0%nat ltac:(simpl; lia)). vm_compute in H. discriminate.
Qed.

(** C2 (amended) on the same trades. *)
Lemma capital_no_spread_running_sum_witness :
  pnl_no_spread (sample_derive missing_size_trades)
  = Some [None; Some (Qz 10)] /\
  capital_no_spread (sample_derive missing_size_trades)
  = Some [None; Some (Qz 10010)] /\
  nth_error [None; Some (Qz 10)] 1 = Some (Some (Qz 10)) /\
  nth_error [None; Some (Qz 10010)] 1 =
  Some (Some (INITIAL_CAPITAL sample_config
              + sum_notna (firstn 2 [None; Some (Qz 10)]))).
Proof.
  split; [reflexivity|]. split; [reflexivity|]. split; [reflexivity|].
  apply (proj2 (capital_no_spread_running_sum
                  parse_epoch (insertion_argsort false) sample_config
                  missing_size_trades [None; Some (Qz 10)]
                  [None; Some (Qz 10010)] eq_refl eq_refl)
               1%nat (Some (Qz 10)) eq_refl).
Defined.

(** C3 as stated fails for equal exit times.  Seventeen trades exit at
    the same second.  numpy's quicksort partitions a segment of more than
    sixteen keys and swaps positions across equal keys while it does, so
    the rows of the sorted frame are not in the order of the file: records
    with equal exit_time do not keep their relative input order. *)
Lemma seventeen_ties_reordered :
  List.length seventeen_tied_trades = 17%nat /\
  map exit_time seventeen_tied_trades
  = repeat (Val "2024-01-02 10:00:00"%string) 17 /\
  exit_times (rows (numpy_derive seventeen_tied_trades))
  = repeat 1704189600000000000%Z 17 /\
  map (fun r : trade string => value (net_pnl r)) seventeen_tied_trades
  = map (fun k => Some (Qz k))
        [0; 1; 2; 3; 4; 5; 6; 7; 8; 9; 10; 11; 12; 13; 14; 15; 16]%Z /\
  col net_pnl (numpy_derive seventeen_tied_trades)
  <> map (fun r : trade string => value (net_pnl r)) seventeen_tied_trades.
Proof.
  split; [reflexivity|]. split; [reflexivity|].
  split; [vm_compute; reflexivity|]. split; [reflexivity|].
  intros H. vm_compute in H. discriminate.
Qed.

(** C3 (amended) on two trades given in reverse order of exit. *)
Lemma sort_by_exit_time_ascending_witness :
  argsort_ok (insertion_argsort false) /\
  exit_times (rows (sample_derive sample_trades)) = [1%Z; 2%Z] /\
  StronglySorted Z.le (exit_times (rows (sample_derive sample_trades))).
Proof.
  split; [apply insertion_argsort_ok|]. split; [reflexivity|].
  apply (sort_by_exit_time_ascending
           parse_epoch (insertion_argsort false) sample_config
           (insertion_argsort_ok false) sample_trades).
Defined.


(** C5 on the two complete trades: the first by exit time has
    mid_price_exit 90, so the benchmark is 10000 and 10000 * 110 / 90. *)
Lemma buy_hold_capital_formula_witness :
  buy_hold_capital sample_config (sample_derive sample_trades)
  = Some [Some (Qz 10000); Some (Q2Qc (110000 # 9))] /\
  List.length [Some (Qz 10000); Some (Q2Qc (110000 # 9))]
  = List.length (rows (sample_derive sample_trades)).
Proof.
  split; [reflexivity|].
  apply (proj1 (proj2 (buy_hold_capital_formula
                         parse_epoch (insertion_argsort false) sample_config
                         sample_trades
                         [Some (Qz 10000); Some (Q2Qc (110000 # 9))]
                         eq_refl))).
Defined.

(** C6 on trades whose first mid_price_exit by exit time is 0.  With
    directions LONG and SHORT the four other charts are saved and the
    benchmark chart is not.  With a direction FLAT the call ends in the
    [ValueError] of chart 3, as it does when the benchmark is computed; the
    benchmark chart is not among the charts saved before. *)
Lemma degenerate_benchmark_skips_one_chart_witness :
  (base_price (sample_derive zero_base_trades) = Some 0 /\
   buy_hold_capital sample_config (sample_derive zero_base_trades) = None /\
   saved (sample_run zero_base_trades)
   = [equity_curve; pnl_per_trade; pnl_over_time; pnl_distribution] /\
   generate_backtest_plots_raises parse_epoch (insertion_argsort false)
                                  sample_config
                                  (sample_fs (Some zero_base_trades))
                                  None None "backtest" = None /\
   is_saved equity_vs_buyhold (sample_run zero_base_trades) = false) /\
  (base_price (numpy_derive flat_zero_base_trades) = Some 0 /\
   buy_hold_capital sample_config (numpy_derive flat_zero_base_trades)
   = None /\
   saved (numpy_run flat_zero_base_trades) = [equity_curve; pnl_per_trade] /\
   numpy_run_raises flat_zero_base_trades = Some ValueError /\
   saved (numpy_run flat_trades)
   = [equity_curve; equity_vs_buyhold; pnl_per_trade] /\
   numpy_run_raises flat_trades = Some ValueError /\
   is_saved equity_vs_buyhold (numpy_run flat_zero_base_trades) = false /\
   pnl_no_spread (numpy_derive flat_zero_base_trades)
   = Some [Some (Qz (-200)); Some 0]).
Proof.
  split.
  - split; [reflexivity|].
    destruct (degenerate_benchmark_skips_one_chart
                parse_epoch (insertion_argsort false) sample_config
                (sample_fs (Some zero_base_trades)) None None "backtest"
                {| doc_trades := Some zero_base_trades |} zero_base_trades
                eq_refl eq_refl ltac:(discriminate) (or_intror eq_refl))
      as [H1 [_ [H2 [H3 [H4 _]]]]].
    split; [exact H1|]. split; [unfold sample_run; rewrite H2; reflexivity|].
    split; [rewrite H3; reflexivity | exact H4].
  - split; [reflexivity|].
    destruct (degenerate_benchmark_skips_one_chart
                parse_iso numpy_argsort sample_config
                (sample_fs (Some flat_zero_base_trades)) None None "backtest"
                {| doc_trades := Some flat_zero_base_trades |}
                flat_zero_base_trades
                eq_refl eq_refl ltac:(discriminate) (or_intror eq_refl))
      as [H1 [_ [H2 [H3 [H4 _]]]]].
    split; [exact H1|].
    split; [unfold numpy_run; rewrite H2; reflexivity|].
    split; [unfold numpy_run_raises; rewrite H3; reflexivity|].
    split; [reflexivity|]. split; [reflexivity|].
    split; [exact H4 | reflexivity].
Defined.

(** C7 as stated fails when a single record lacks a field.  The second
    record has no mid_price_entry key; the series is computed all the same,
    with a value for the first record and none for the second. *)
Lemma no_spread_series_partial_counterexample :
  forallb has_no_spread_fields partial_trades = false /\
  pnl_no_spread (sample_derive partial_trades)
  = Some [Some (Qz 20); None] /\
  capital_no_spread (sample_derive partial_trades)
  = Some [Some (Qz 10020); None].
Proof. repeat split; reflexivity. Qed.

(** C7 (amended) on the same trades: the entry of the second record is
    missing because its mid_price_entry is. *)
Lemma no_spread_series_gate_witness :
  pnl_no_spread (sample_derive partial_trades)
  = Some [Some (Qz 20); None] /\
  exists r : trade Z,
    nth_error (rows (sample_derive partial_trades)) 1 = Some r /\
    value (mid_price_entry r) = None /\
    nth_error [Some (Qz 20); None] 1 = Some None.
Proof.
  split; [reflexivity|].
  eexists. split; [reflexivity|]. split; [reflexivity|].
  apply (proj2 (proj2 (no_spread_series_gate
                         parse_epoch (insertion_argsort false) sample_config
                         partial_trades))
               [Some (Qz 20); None] 1%nat _ eq_refl eq_refl).
  left. reflexivity.
Defined.




(** C10 as stated fails when the position size is missing.  The second
    record has direction FLAT and [position_size: null]: its PnL is not 0
    but missing, and the capital at its row is not the 10020 of the
    preceding row but missing. *)
Lemma neutral_direction_missing_size_counterexample :
  map direction (rows (sample_derive neutral_trades))
  = [Val "LONG"%string; Val "FLAT"%string] /\
  pnl_no_spread (sample_derive neutral_trades)
  = Some [Some (Qz 20); None] /\
  capital_no_spread (sample_derive neutral_trades)
  = Some [Some (Qz 10020); None].
Proof. repeat split; reflexivity. Qed.

(** C10 (amended) on a FLAT record with all its numbers: PnL 0, capital
    10020 as at the preceding row. *)
Lemma neutral_direction_no_spread_pnl_witness :
  pnl_no_spread (sample_derive neutral_complete_trades)
  = Some [Some (Qz 20); Some 0] /\
  capital_no_spread (sample_derive neutral_complete_trades)
  = Some [Some (Qz 10020); Some (Qz 10020)] /\
  exists r : trade Z,
    nth_error (rows (sample_derive neutral_complete_trades)) 1 = Some r /\
    direction r = Val "FLAT"%string /\
    spec_sign r = 0 /\
    nth_error [Some (Qz 20); Some 0] 1 = Some (Some 0).
Proof.
  split; [reflexivity|]. split; [reflexivity|].
  eexists. split; [reflexivity|]. split; [reflexivity|].
  destruct (neutral_direction_no_spread_pnl
              parse_epoch (insertion_argsort false) sample_config
              neutral_complete_trades [Some (Qz 20); Some 0]
              [Some (Qz 10020); Some (Qz 10020)] 1%nat _
              (Qz 100) (Qz 110) (Qz 2)
              eq_refl eq_refl eq_refl
              ltac:(discriminate) ltac:(discriminate)
              eq_refl eq_refl eq_refl)
    as [H1 [H2 _]].
  split; [exact H1 | exact H2].
Defined.

(** * Further properties of [generate_backtest_plots] *)

(** ** The trace of a run *)

Section Trace.

Variable to_datetime : string -> option Z.
Variable argsort : list Z -> list nat.
Variable cfg : config.

Local Abbreviation derived := (derive to_datetime argsort cfg).
Local Abbreviation run := (generate_backtest_plots to_datetime argsort cfg).

Lemma save_events_app (l l' : list (string * figure)) :
  save_events (l ++ l') = save_events l ++ save_events l'.
Proof. apply flat_map_app. Qed.

Lemma printed_save_events (figs : list (string * figure)) :
  printed (save_events figs) =
  map (fun pf => ("[SAVE] " ++ fst pf)%string) figs.
Proof.
  induction figs as [|pf figs IH]; [reflexivity|].
  cbn [save_events flat_map app printed map]. f_equal. exact IH.
Qed.

Lemma saved_paths_save_events (figs : list (string * figure)) :
  saved_paths (save_events figs) = map fst figs.
Proof.
  induction figs as [|pf figs IH]; [reflexivity|].
  cbn [save_events flat_map app saved_paths map]. f_equal. exact IH.
Qed.

(** Every chart block leaves nothing, or one figure and its line. *)
Lemma charts_are_save_events (output_dir prefix : string) (df : DataFrame) :
  exists figs : list (string * figure),
    charts cfg output_dir prefix df = save_events figs.
Proof.
  assert (Hsave : forall file fig,
             save output_dir prefix file fig =
             save_events [(path_join output_dir (prefix ++ file)%string,
                           fig)])
    by reflexivity.
  assert (H1 : exists f, equity_curve_chart output_dir prefix df
                         = save_events f).
  { unfold equity_curve_chart.
    destruct (_ && _)%bool; [eexists; apply Hsave | exists []; reflexivity]. }
  assert (H2 : exists f, equity_vs_buyhold_chart cfg output_dir prefix df
                         = save_events f).
  { unfold equity_vs_buyhold_chart.
    destruct (_ && _)%bool; [|exists []; reflexivity].
    destruct (buy_hold_capital cfg df);
      [eexists; apply Hsave | exists []; reflexivity]. }
  assert (H5 : exists f, pnl_distribution_chart output_dir prefix df
                         = save_events f).
  { unfold pnl_distribution_chart.
    destruct (in_columns "net_pnl" df);
      [eexists; apply Hsave | exists []; reflexivity]. }
  assert (H345 : exists f,
             trace [pnl_per_trade_chart output_dir prefix df;
                    pnl_over_time_chart output_dir prefix df;
                    Done (pnl_distribution_chart output_dir prefix df)]
             = save_events f).
  { destruct (pnl_per_trade_chart_cases output_dir prefix df)
      as [[-> _] | ->]; [exists []; reflexivity|].
    assert (H3 : exists f3,
               (if in_columns "net_pnl" df
                then save output_dir prefix "_pnl_per_trade.png"
                          (PnlPerTrade
                             (col net_pnl df)
                             (map (fun v => if gt0 v then green else red)
                                  (col net_pnl df)))
                else []) = save_events f3).
    { destruct (in_columns "net_pnl" df);
        [eexists; apply Hsave | exists []; reflexivity]. }
    destruct H3 as [f3 ->].
    destruct (pnl_over_time_chart_cases output_dir prefix df)
      as [[-> _] | ->].
    { exists f3. cbn [trace]. apply app_nil_r. }
    assert (H4 : exists f4,
               (if (in_columns "exit_time" df && in_columns "net_pnl" df)%bool
                then save output_dir prefix "_pnl_over_time.png"
                          (PnlOverTime (col exit_time df) (col net_pnl df)
                                       (if in_columns "direction" df
                                        then Some (col direction df)
                                        else None))
                else []) = save_events f4).
    { destruct (_ && _)%bool;
        [eexists; apply Hsave | exists []; reflexivity]. }
    destruct H4 as [f4 ->], H5 as [f5 ->].
    exists (f3 ++ f4 ++ f5).
    cbn [trace]. rewrite !save_events_app, app_nil_r. reflexivity. }
  destruct H1 as [f1 H1], H2 as [f2 H2], H345 as [f3 H3].
  exists (f1 ++ f2 ++ f3).
  unfold charts, chart_blocks. rewrite !trace_Done, H1, H2, H3.
  rewrite !save_events_app. reflexivity.
Qed.

(** X1.  A run on a result file with at least one trade first makes the
    output directory; after that its trace consists only of saved figures,
    each followed at once by the line "[SAVE] " and the path just written.
    So the printed lines are exactly the confirmations of the saved paths,
    in order, one per chart. *)
Theorem run_confirms_each_saved_chart :
  forall (fs : filesystem) (results_path output_dir : option string)
         (prefix : string) (data : document) (trades : list (trade string)),
    fs (or_default results_path (BACKTEST_RESULTS_FILE cfg)) = Some data ->
    doc_trades data = Some trades ->
    trades <> [] ->
    let out := run fs results_path output_dir prefix in
    exists figs : list (string * figure),
      out = MakeDirs (or_default output_dir (LOGS_DIR cfg))
            :: save_events figs /\
      printed out = map (fun p => ("[SAVE] " ++ p)%string) (saved_paths out) /\
      List.length (printed out) = List.length (saved out).
Proof.
  intros fs results_path output_dir prefix data trades Hfs Hd Hne out.
  unfold out.
  rewrite (generate_backtest_plots_runs _ _ _ _ _ _ _ _ _ Hfs Hd Hne).
  destruct (charts_are_save_events (or_default output_dir (LOGS_DIR cfg))
                                   prefix (derived trades)) as [figs ->].
  exists figs. split; [reflexivity|].
  cbn [printed saved_paths saved flat_map app].
  fold (printed (save_events figs)) (saved_paths (save_events figs))
       (saved (save_events figs)).
  rewrite printed_save_events, saved_paths_save_events, map_map.
  split; [reflexivity|].
  rewrite length_map. clear.
  induction figs as [|pf figs IH]; [reflexivity|].
  cbn [save_events flat_map app saved List.length]. f_equal. exact IH.
Qed.

(** X2.  Whatever the file system holds and whatever the arguments, the
    charts saved by a run are taken from equity curve, equity against buy
    and hold, PnL per trade, PnL over time and PnL distribution, in that
    order and each at most once. *)
Theorem saved_charts_in_fixed_order :
  forall (fs : filesystem) (results_path output_dir : option string)
         (prefix : string),
    is_subsequence (saved (run fs results_path output_dir prefix))
                   chart_order = true.
Proof.
  intros fs results_path output_dir prefix.
  unfold generate_backtest_plots, generate_backtest_plots_blocks.
  destruct (fs _) as [data|]; [|reflexivity].
  destruct (doc_trades data) as [[|t trades]|]; try reflexivity.
  cbn [trace saved flat_map app].
  match goal with
  | |- context [chart_blocks cfg ?d ?p ?df] =>
      fold (charts cfg d p df); fold (saved (charts cfg d p df));
      destruct (saved_charts_subsequence cfg d p df)
        as [b1 [b1b [b2 [b3 [b4 ->]]]]]
  end.
  destruct b1, b1b, b2, b3, b4; reflexivity.
Qed.

End Trace.

(** ** The files written *)

Section Files.

Variable to_datetime : string -> option Z.
Variable argsort : list Z -> list nat.
Variable cfg : config.

Local Abbreviation derived := (derive to_datetime argsort cfg).
Local Abbreviation run := (generate_backtest_plots to_datetime argsort cfg).

Lemma append_cancel_l (a b c : string) :
  (a ++ b)%string = (a ++ c)%string -> b = c.
Proof.
  induction a as [|x a IH]; simpl; intros H; [exact H|].
  injection H as H. apply IH, H.
Qed.

Lemma prefix_empty (s : string) : String.prefix "" s = true.
Proof. destruct s; reflexivity. Qed.

Lemma prefix_cons (a b : ascii) (s1 s2 : string) :
  String.prefix (String a s1) (String b s2) =
  if ascii_dec a b then String.prefix s1 s2 else false.
Proof. reflexivity. Qed.

Lemma prefix_append (a b : string) : String.prefix a (a ++ b) = true.
Proof.
  induction a as [|x a IH]; simpl; [apply prefix_empty|].
  destruct (ascii_dec x x); [exact IH | contradiction].
Qed.

(** Whether the file name is absolute is decided by the prefix alone. *)
Lemma absolute_file_name (prefix : string) (k : chart_kind) :
  String.prefix "/" (prefix ++ file_suffix k) = String.prefix "/" prefix.
Proof.
  destruct prefix as [|c p]; [destruct k; reflexivity|].
  change (String c p ++ file_suffix k)%string
    with (String c (p ++ file_suffix k)).
  rewrite !(prefix_cons "/"%char c).
  destruct (ascii_dec "/" c); [|reflexivity].
  rewrite !prefix_empty. reflexivity.
Qed.

Lemma file_suffix_injective (k k' : chart_kind) :
  file_suffix k = file_suffix k' -> k = k'.
Proof. destruct k, k'; intros H; try reflexivity; discriminate. Qed.

Lemma chart_path_injective (output_dir prefix : string) (k k' : chart_kind) :
  chart_path output_dir prefix k = chart_path output_dir prefix k' -> k = k'.
Proof.
  unfold chart_path, path_join. rewrite !absolute_file_name.
  destruct (String.prefix "/" prefix);
    [|destruct (String.eqb output_dir "" || ends_with_slash output_dir)%bool];
    intros H; apply file_suffix_injective;
    repeat (apply append_cancel_l in H); exact H.
Qed.

Lemma NoDup_map_injective {A B} (f : A -> B) (l : list A) :
  (forall x y, f x = f y -> x = y) -> NoDup l -> NoDup (map f l).
Proof.
  intros Hf. induction 1 as [|x l Hx Hl IH]; simpl; constructor; [|exact IH].
  intros Hin. apply in_map_iff in Hin. destruct Hin as [y [Hy Hin]].
  apply Hf in Hy. subst y. contradiction.
Qed.

Lemma saved_paths_charts (output_dir prefix : string) (df : DataFrame) :
  saved_paths (charts cfg output_dir prefix df) =
  map (chart_path output_dir prefix) (saved (charts cfg output_dir prefix df)).
Proof.
  unfold charts, chart_blocks. rewrite !trace_Done.
  destruct (pnl_per_trade_chart_cases output_dir prefix df) as [[-> _] | ->];
    [|destruct (pnl_over_time_chart_cases output_dir prefix df)
       as [[-> _] | ->]];
    unfold equity_curve_chart, equity_vs_buyhold_chart,
      pnl_distribution_chart;
    destruct (in_columns "exit_time" df),
      (in_columns "capital_after_exit" df),
      (in_columns "mid_price_exit" df), (in_columns "net_pnl" df),
      (buy_hold_capital cfg df); reflexivity.
Qed.

Lemma NoDup_saved_charts (output_dir prefix : string) (df : DataFrame) :
  NoDup (saved (charts cfg output_dir prefix df)).
Proof.
  destruct (saved_charts_subsequence cfg output_dir prefix df)
    as [b1 [b1b [b2 [b3 [b4 ->]]]]].
  destruct b1, b1b, b2, b3, b4; cbn;
    repeat (constructor; [simpl; intuition discriminate|]); constructor.
Qed.

(** The saved paths of any run, through the kinds of its charts. *)
Lemma saved_paths_run (fs : filesystem)
      (results_path output_dir : option string) (prefix : string) :
  saved_paths (run fs results_path output_dir prefix) =
  map (chart_path (or_default output_dir (LOGS_DIR cfg)) prefix)
      (saved (run fs results_path output_dir prefix)) /\
  NoDup (saved (run fs results_path output_dir prefix)).
Proof.
  unfold generate_backtest_plots, generate_backtest_plots_blocks.
  destruct (fs _) as [data|]; [|split; [reflexivity | constructor]].
  destruct (doc_trades data) as [[|t trades]|];
    try (split; [reflexivity | constructor]).
  rewrite trace_Done. cbn [saved saved_paths flat_map app].
  split; [apply saved_paths_charts | apply NoDup_saved_charts].
Qed.

(** X3.  In every run each chart goes to the file of its own kind,
    os.path.join(output_dir, prefix + "_equity_curve.png") and so on, and
    no two charts of a run are written to the same path, whatever the
    output directory and the prefix: no chart overwrites another. *)
Theorem charts_written_to_distinct_files :
  forall (fs : filesystem) (results_path output_dir : option string)
         (prefix : string),
    let out := run fs results_path output_dir prefix in
    saved_paths out =
    map (chart_path (or_default output_dir (LOGS_DIR cfg)) prefix)
        (saved out) /\
    NoDup (saved_paths out).
Proof.
  intros fs results_path output_dir prefix out.
  destruct (saved_paths_run fs results_path output_dir prefix) as [H1 H2].
  split; [exact H1|]. unfold out. rewrite H1.
  apply NoDup_map_injective; [apply chart_path_injective | exact H2].
Qed.

(** X4.  With a prefix that does not start with "/", every file of a run
    is written below the output directory: its path starts with
    output_dir.  With a prefix that starts with "/", os.path.join drops the
    output directory and the path is the prefix followed by the file name
    of the chart. *)
Theorem saved_paths_and_output_dir :
  forall (fs : filesystem) (results_path output_dir : option string)
         (prefix path : string),
    In path (saved_paths (run fs results_path output_dir prefix)) ->
    (String.prefix "/" prefix = false ->
     String.prefix (or_default output_dir (LOGS_DIR cfg)) path = true) /\
    (String.prefix "/" prefix = true ->
     exists k : chart_kind, path = (prefix ++ file_suffix k)%string).
Proof.
  intros fs results_path output_dir prefix path Hin.
  rewrite (proj1 (saved_paths_run fs results_path output_dir prefix)) in Hin.
  apply in_map_iff in Hin. destruct Hin as [k [<- _]].
  unfold chart_path, path_join. rewrite absolute_file_name.
  split; intros ->.
  - destruct (String.eqb _ "" || ends_with_slash _)%bool;
      apply prefix_append.
  - exists k. reflexivity.
Qed.

(** X5.  When the file has trades but no record has an exit_time or a
    net_pnl, the run makes the output directory and does nothing else: no
    chart, and no line, not even a warning. *)
Theorem run_without_chart_fields_is_silent :
  forall (fs : filesystem) (results_path output_dir : option string)
         (prefix : string) (data : document) (trades : list (trade string)),
    fs (or_default results_path (BACKTEST_RESULTS_FILE cfg)) = Some data ->
    doc_trades data = Some trades ->
    trades <> [] ->
    some_record_has exit_time trades = false ->
    some_record_has net_pnl trades = false ->
    run fs results_path output_dir prefix =
    [MakeDirs (or_default output_dir (LOGS_DIR cfg))].
Proof.
  intros fs results_path output_dir prefix data trades Hfs Hd Hne Ht Hp.
  rewrite (generate_backtest_plots_runs _ _ _ _ _ _ _ _ _ Hfs Hd Hne).
  f_equal.
  unfold charts, chart_blocks, equity_curve_chart, equity_vs_buyhold_chart,
    pnl_per_trade_chart, pnl_over_time_chart, pnl_distribution_chart.
  rewrite column_exit_time, column_net_pnl, Ht, Hp. reflexivity.
Qed.

End Files.

(** ** More on the sort *)

Section SortedFrame.

Variable to_datetime : string -> option Z.
Variable cfg : config.

Local Abbreviation frame := (load_frame to_datetime).

Lemma take_nil {A} (idx : list nat) : take idx (@nil A) = [].
Proof.
  induction idx as [|i idx IH]; [reflexivity|].
  rewrite take_cons, IH. destruct i; reflexivity.
Qed.

Lemma filter_none {A} (p : A -> bool) (l : list A) :
  (forall x, In x l -> p x = false) -> filter p l = [].
Proof.
  induction l as [|a l IH]; intros H; [reflexivity|].
  simpl. rewrite (H a) by (left; reflexivity).
  apply IH. intros x Hx. apply H. right; exact Hx.
Qed.

Lemma exit_times_app (l l' : list (trade Z)) :
  exit_times (l ++ l') = exit_times l ++ exit_times l'.
Proof. unfold exit_times. rewrite map_app. apply dropna_app. Qed.

Lemma exit_times_missing (l : list (trade Z)) :
  exit_times (filter missing_exit_time l) = [].
Proof.
  exact (dropna_isna_rows (fun r : trade Z => value (exit_time r)) l).
Qed.

Lemma exit_times_Permutation (l l' : list (trade Z)) :
  Permutation l l' -> Permutation (exit_times l) (exit_times l').
Proof.
  intros H. unfold exit_times, dropna.
  apply Permutation_flat_map, Permutation_map, H.
Qed.

(** The exit-time column of rows that all have an exit time. *)
Lemma col_exit_time_defined (l : list (trade Z)) :
  Forall (fun r => missing_exit_time r = false) l ->
  map (fun r => value (exit_time r)) l = map Some (exit_times l) /\
  map exit_key l = exit_times l.
Proof.
  induction 1 as [|r l Hr Hl [IH1 IH2]]; [split; reflexivity|].
  unfold missing_exit_time in Hr.
  change (exit_times (r :: l))
    with (match value (exit_time r) with Some v => [v] | None => [] end
          ++ exit_times l).
  cbn [map]. unfold exit_key at 1.
  destruct (value (exit_time r)) as [t|]; [|discriminate].
  cbn [app map]. split; f_equal; assumption.
Qed.

(** What the sort does to the loaded frame, for an argsort that meets the
    contract. *)
Lemma sorted_rows (argsort : list Z -> list nat)
      (trades : list (trade string)) :
  argsort_ok argsort ->
  exists sorted : list (trade Z),
    rows (sort_by_exit_time argsort (frame trades)) =
    sorted ++ filter missing_exit_time (rows (frame trades)) /\
    Forall (fun r => missing_exit_time r = false) sorted /\
    StronglySorted Z.le (exit_times sorted) /\
    Permutation (sorted ++ filter missing_exit_time (rows (frame trades)))
                (rows (frame trades)).
Proof.
  intros Hok. unfold sort_by_exit_time.
  set (input := rows (frame trades)).
  set (key := fun r : trade Z => value (exit_time r)).
  destruct (in_columns "exit_time" (frame trades)) eqn:E.
  - cbn [rows sort_values_exit_time]. fold input.
    set (idx := argsort (dropna (col exit_time (frame trades)))).
    exists (take idx (filter (fun r => notna (key r)) input)).
    split; [reflexivity|]. split; [|split].
    + apply Forall_take, (Forall_notna_rows key).
    + unfold exit_times. rewrite (dropna_take_notna key).
      apply Sorted_le_StronglySorted, Hok.
    + eapply Permutation_trans;
        [|apply (filter_split_Permutation (fun r => notna (key r)) input)].
      apply Permutation_app.
      * apply take_Permutation. rewrite <- length_dropna_notna. apply Hok.
      * erewrite filter_ext; [reflexivity|].
        intros r. unfold missing_exit_time, notna.
        rewrite negb_involutive. reflexivity.
  - fold input. exists [].
    assert (Hall : filter missing_exit_time input = input)
      by (apply filter_all, no_exit_time_column, E).
    rewrite Hall. split; [reflexivity|]. split; [constructor|].
    split; [constructor | reflexivity].
Qed.

Lemma sorted_rows_Permutation (argsort : list Z -> list nat)
      (trades : list (trade string)) :
  argsort_ok argsort ->
  Permutation (rows (derive to_datetime argsort cfg trades))
              (rows (frame trades)).
Proof.
  intros Hok. rewrite rows_derive.
  destruct (sorted_rows argsort trades Hok) as [s [-> [_ [_ H]]]]. exact H.
Qed.

(** Two lists with the same elements, both ascending by a key that tells
    their elements apart, are equal. *)
Lemma ascending_Permutation_unique {A} (key : A -> Z) (l1 l2 : list A) :
  Permutation l1 l2 ->
  StronglySorted Z.le (map key l1) ->
  StronglySorted Z.le (map key l2) ->
  (forall a b, In a l1 -> In b l1 -> key a = key b -> a = b) ->
  l1 = l2.
Proof.
  revert l2; induction l1 as [|a t1 IH]; intros l2 Hp H1 H2 Hinj.
  - apply Permutation_nil in Hp. congruence.
  - destruct l2 as [|b t2];
      [apply Permutation_sym, Permutation_nil in Hp; discriminate|].
    cbn [map] in H1, H2.
    apply StronglySorted_inv in H1. destruct H1 as [H1 Ha].
    apply StronglySorted_inv in H2. destruct H2 as [H2 Hb].
    rewrite Forall_forall in Ha, Hb.
    assert (Hba : In b (a :: t1))
      by (apply (Permutation_in _ (Permutation_sym Hp)); left; reflexivity).
    assert (Hab : In a (b :: t2))
      by (apply (Permutation_in _ Hp); left; reflexivity).
    assert (Hle1 : (key a <= key b)%Z).
    { destruct Hba as [<- | Hba]; [lia|]. apply Ha, in_map, Hba. }
    assert (Hle2 : (key b <= key a)%Z).
    { destruct Hab as [<- | Hab]; [lia|]. apply Hb, in_map, Hab. }
    assert (a = b)
      by (apply Hinj; [left; reflexivity | exact Hba | lia]).
    subst b. f_equal. apply IH; try assumption.
    + apply (Permutation_cons_inv Hp).
    + intros x y Hx Hy. apply Hinj; right; assumption.
Qed.

Lemma NoDup_map_injective_on {A B} (f : A -> B) (l : list A) :
  NoDup (map f l) ->
  forall a b, In a l -> In b l -> f a = f b -> a = b.
Proof.
  induction l as [|x l IH]; intros Hnd a b Ha Hb Hf; [contradiction|].
  cbn [map] in Hnd. apply NoDup_cons_iff in Hnd. destruct Hnd as [Hx Hnd].
  destruct Ha as [<- | Ha], Hb as [<- | Hb]; try reflexivity.
  - exfalso. apply Hx. rewrite Hf. apply in_map, Hb.
  - exfalso. apply Hx. rewrite <- Hf. apply in_map, Ha.
  - apply IH; assumption.
Qed.

(** X6.  The exit-time column of the sorted frame, the time axis of the
    equity, benchmark and scatter charts, does not depend on how the sort
    treats equal keys: any two argsorts that return a permutation under
    which the keys ascend give the same column, even where they order the
    rows differently. *)
Theorem time_axis_independent_of_tie_order :
  forall (argsort argsort' : list Z -> list nat)
         (trades : list (trade string)),
    argsort_ok argsort ->
    argsort_ok argsort' ->
    col exit_time (derive to_datetime argsort cfg trades) =
    col exit_time (derive to_datetime argsort' cfg trades).
Proof.
  intros argsort argsort' trades Hok Hok'. unfold col.
  rewrite !rows_derive.
  destruct (sorted_rows argsort trades Hok) as [s [-> [Hs [Hss Hp]]]].
  destruct (sorted_rows argsort' trades Hok') as [s' [-> [Hs' [Hss' Hp']]]].
  rewrite !map_app. f_equal.
  rewrite (proj1 (col_exit_time_defined s Hs)),
    (proj1 (col_exit_time_defined s' Hs')).
  f_equal.
  apply (ascending_Permutation_unique (fun t : Z => t));
    rewrite ?map_id; try assumption; [|intros a b _ _ H; exact H].
  pose proof (exit_times_Permutation _ _
                (Permutation_trans Hp (Permutation_sym Hp'))) as H.
  rewrite !exit_times_app, !exit_times_missing, !app_nil_r in H. exact H.
Qed.

(** X7.  When no exit_time of the file parses (or none is given), the sort
    leaves the rows in file order, whatever the argsort does. *)
Theorem unparsable_exit_times_keep_file_order :
  forall (argsort : list Z -> list nat) (trades : list (trade string)),
    (forall (r : trade string) (s : string),
        In r trades -> exit_time r = Val s -> to_datetime s = None) ->
    rows (derive to_datetime argsort cfg trades) = rows (frame trades).
Proof.
  intros argsort trades Hnone. rewrite rows_derive.
  assert (Hall : forall r, In r (rows (frame trades)) ->
                           missing_exit_time r = true).
  { intros r Hin. simpl in Hin. apply in_map_iff in Hin.
    destruct Hin as [t [<- Hin]]. unfold missing_exit_time. simpl.
    destruct (exit_time t) as [| |s] eqn:E; try reflexivity.
    simpl. rewrite (Hnone t s Hin E). reflexivity. }
  unfold sort_by_exit_time.
  destruct (in_columns "exit_time" (frame trades)); [|reflexivity].
  cbn [rows sort_values_exit_time].
  replace (filter (fun r => notna (value (exit_time r))) (rows (frame trades)))
    with (@nil (trade Z)).
  - rewrite take_nil. apply (filter_all missing_exit_time), Hall.
  - symmetry. apply filter_none. intros r Hin.
    apply Hall in Hin. unfold missing_exit_time in Hin. unfold notna.
    rewrite Hin. reflexivity.
Qed.

End SortedFrame.

(** ** The derived series *)

Section DerivedSeries.

Variable to_datetime : string -> option Z.
Variable cfg : config.

Local Abbreviation frame := (load_frame to_datetime).

(** The two derived columns, as lists. *)
Lemma derived_columns (argsort : list Z -> list nat)
      (trades : list (trade string)) (pnl : series) :
  pnl_no_spread (derive to_datetime argsort cfg trades) = Some pnl ->
  pnl = map spec_no_spread_pnl (rows (derive to_datetime argsort cfg trades))
  /\
  capital_no_spread (derive to_datetime argsort cfg trades) =
  Some (scalar_add (INITIAL_CAPITAL cfg) (cumsum pnl)).
Proof.
  intros Hpnl.
  destruct (derive_no_spread_cases to_datetime argsort cfg trades)
    as [[_ [pnl' [H1 [H2 Hnth]]]] | [_ [H1 _]]]; [|congruence].
  assert (pnl' = pnl) by congruence; subst pnl'.
  split; [|exact H2].
  apply nth_error_ext. intros i.
  rewrite Hnth, nth_error_map, rows_derive. reflexivity.
Qed.

Lemma length_rows_derive (argsort : list Z -> list nat)
      (trades : list (trade string)) :
  argsort_ok argsort ->
  List.length (rows (derive to_datetime argsort cfg trades)) =
  List.length trades.
Proof.
  intros Hok.
  rewrite (Permutation_length
             (sorted_rows_Permutation to_datetime cfg argsort trades Hok)).
  simpl. apply length_map.
Qed.

(** X8.  Sorting rearranges the trades and changes none of them: for an
    argsort that meets the contract, the no-spread PnL column holds exactly
    the per-trade no-spread PnL of the trades of the file, each trade once,
    in the order of the sort. *)
Theorem no_spread_pnl_is_rearrangement :
  forall (argsort : list Z -> list nat) (trades : list (trade string))
         (pnl : series),
    argsort_ok argsort ->
    pnl_no_spread (derive to_datetime argsort cfg trades) = Some pnl ->
    Permutation pnl (map spec_no_spread_pnl trades) /\
    List.length pnl = List.length trades.
Proof.
  intros argsort trades pnl Hok Hpnl.
  destruct (derived_columns argsort trades pnl Hpnl) as [Hmap _].
  assert (Hp : Permutation pnl (map spec_no_spread_pnl trades)).
  { rewrite Hmap.
    rewrite (Permutation_map spec_no_spread_pnl
               (sorted_rows_Permutation to_datetime cfg argsort trades Hok)).
    simpl. rewrite map_map. reflexivity. }
  split; [exact Hp|].
  rewrite (Permutation_length Hp). apply length_map.
Qed.

(** X9.  Slippage is a cost in both directions.  For a LONG or SHORT row
    with both mid prices and the size present, the no-spread PnL is
    defined, and with a non-negative size and non-negative slippages (a
    missing slippage counting as 0) it is never above the PnL at mid
    prices, (mid_price_exit - mid_price_entry) * sign * size. *)
Theorem slippage_lowers_no_spread_pnl :
  forall (argsort : list Z -> list nat) (trades : list (trade string))
         (pnl : series) (i : nat) (r : trade Z) (pe px sz : Qc),
    pnl_no_spread (derive to_datetime argsort cfg trades) = Some pnl ->
    nth_error (rows (derive to_datetime argsort cfg trades)) i = Some r ->
    direction r = Val "LONG"%string \/ direction r = Val "SHORT"%string ->
    value (mid_price_entry r) = Some pe ->
    value (mid_price_exit r) = Some px ->
    value (position_size r) = Some sz ->
    0 <= sz ->
    0 <= spec_slippage (slippage_entry r) ->
    0 <= spec_slippage (slippage_exit r) ->
    exists v : Qc,
      nth_error pnl i = Some (Some v) /\
      v <= (px - pe) * spec_sign r * sz.
Proof.
  intros argsort trades pnl i r pe px sz Hpnl Hr Hdir Hpe Hpx Hsz
         Hsz0 He0 Hx0.
  destruct (derived_columns argsort trades pnl Hpnl) as [Hmap _].
  set (se := spec_slippage (slippage_entry r)) in *.
  set (sx := spec_slippage (slippage_exit r)) in *.
  set (s := spec_sign r).
  assert (Hsq : s * s = 1).
  { unfold s, spec_sign. destruct Hdir as [-> | ->]; cbn; ring. }
  exists ((px - s * sx - (pe + s * se)) * s * sz). split.
  - rewrite Hmap, nth_error_map, Hr. cbn [option_map].
    unfold spec_no_spread_pnl. rewrite Hpe, Hpx, Hsz. reflexivity.
  - apply Qcle_minus_iff.
    replace ((px - pe) * s * sz + - ((px - s * sx - (pe + s * se)) * s * sz))
      with ((s * s) * (se + sx) * sz) by ring.
    rewrite Hsq, Qcmult_1_l, <- (Qcmult_0_l sz).
    apply Qcmult_le_compat_r; [|exact Hsz0].
    rewrite <- (Qcplus_0_l 0). apply Qcplus_le_compat; assumption.
Qed.

End DerivedSeries.

(** ** The benchmark *)

Section Benchmark.

Variable cfg : config.

(** X10.  Whenever the buy-and-hold benchmark is computed, it starts at the
    initial capital: its first entry is exactly INITIAL_CAPITAL. *)
Theorem buy_hold_capital_starts_at_initial_capital :
  forall (df : DataFrame) (bh : series),
    buy_hold_capital cfg df = Some bh ->
    nth_error bh 0 = Some (Some (INITIAL_CAPITAL cfg)).
Proof.
  intros df bh H. unfold buy_hold_capital, base_price, col in H.
  destruct (rows df) as [|r0 rs]; [discriminate|]. cbn [map] in H.
  destruct (value (mid_price_exit r0)) as [b|]; [|discriminate].
  destruct (nonzero b) eqn:E; [|discriminate]. injection H as <-.
  apply nonzero_true in E. cbn. do 2 f_equal. field. exact E.
Qed.

End Benchmark.

(** ** Independence of the sort algorithm *)

Section Determinism.

Variable to_datetime : string -> option Z.
Variable cfg : config.

Local Abbreviation frame := (load_frame to_datetime).

Lemma frame_eq (df df' : DataFrame) :
  columns df = columns df' ->
  rows df = rows df' ->
  pnl_no_spread df = pnl_no_spread df' ->
  capital_no_spread df = capital_no_spread df' ->
  df = df'.
Proof.
  destruct df, df'; simpl; intros; subst; reflexivity.
Qed.

(** With exit times that are pairwise different where they parse, the
    sorted rows do not depend on the argsort. *)
Lemma sorted_rows_unique (argsort argsort' : list Z -> list nat)
      (trades : list (trade string)) :
  argsort_ok argsort -> argsort_ok argsort' ->
  NoDup (exit_times (rows (frame trades))) ->
  rows (sort_by_exit_time argsort (frame trades)) =
  rows (sort_by_exit_time argsort' (frame trades)).
Proof.
  intros Hok Hok' Hnd.
  destruct (sorted_rows to_datetime argsort trades Hok)
    as [s [-> [Hs [Hss Hp]]]].
  destruct (sorted_rows to_datetime argsort' trades Hok')
    as [s' [-> [Hs' [Hss' Hp']]]].
  f_equal.
  apply (ascending_Permutation_unique exit_key).
  - apply (Permutation_app_inv_r
             (filter missing_exit_time (rows (frame trades)))).
    exact (Permutation_trans Hp (Permutation_sym Hp')).
  - rewrite (proj2 (col_exit_time_defined s Hs)). exact Hss.
  - rewrite (proj2 (col_exit_time_defined s' Hs')). exact Hss'.
  - apply NoDup_map_injective_on.
    rewrite (proj2 (col_exit_time_defined s Hs)).
    apply exit_times_Permutation in Hp.
    rewrite exit_times_app, exit_times_missing, app_nil_r in Hp.
    apply (Permutation_NoDup (Permutation_sym Hp)), Hnd.
Qed.

(** X11.  When the exit times of the file that parse are pairwise
    different, the derived frame is fixed by the file: any two argsorts
    that return a permutation under which the keys ascend give the same
    sorted rows and the same no-spread series, and a call on that file has
    the same effects and ends the same way with either. *)
Theorem derived_frame_independent_of_argsort :
  forall (argsort argsort' : list Z -> list nat)
         (trades : list (trade string)),
    argsort_ok argsort ->
    argsort_ok argsort' ->
    NoDup (exit_times (rows (frame trades))) ->
    derive to_datetime argsort cfg trades =
    derive to_datetime argsort' cfg trades /\
    forall (fs : filesystem) (results_path output_dir : option string)
           (prefix : string) (data : document),
      fs (or_default results_path (BACKTEST_RESULTS_FILE cfg)) = Some data ->
      doc_trades data = Some trades ->
      generate_backtest_plots to_datetime argsort cfg fs results_path
                              output_dir prefix =
      generate_backtest_plots to_datetime argsort' cfg fs results_path
                              output_dir prefix /\
      generate_backtest_plots_raises to_datetime argsort cfg fs results_path
                                     output_dir prefix =
      generate_backtest_plots_raises to_datetime argsort' cfg fs results_path
                                     output_dir prefix.
Proof.
  intros argsort argsort' trades Hok Hok' Hnd.
  assert (Hsorted : sort_by_exit_time argsort (frame trades) =
                    sort_by_exit_time argsort' (frame trades)).
  { apply frame_eq.
    - rewrite !columns_sort_by_exit_time. reflexivity.
    - apply sorted_rows_unique; assumption.
    - unfold sort_by_exit_time.
      destruct (in_columns "exit_time" (frame trades)); reflexivity.
    - unfold sort_by_exit_time.
      destruct (in_columns "exit_time" (frame trades)); reflexivity. }
  assert (Hdf : derive to_datetime argsort cfg trades =
                derive to_datetime argsort' cfg trades)
    by (unfold derive; rewrite Hsorted; reflexivity).
  split; [exact Hdf|].
  intros fs results_path output_dir prefix data Hfs Hd.
  unfold generate_backtest_plots, generate_backtest_plots_raises,
    generate_backtest_plots_blocks.
  rewrite Hfs, Hd, Hdf. split; reflexivity.
Qed.

(** X12.  For an argsort that meets the contract, every data column of
    every figure that a run saves - time axis, capital, no-spread capital,
    benchmark, PnL, colours, hue - has exactly one entry per trade of the
    result file. *)
Theorem saved_figures_have_one_point_per_trade :
  forall (argsort : list Z -> list nat) (fs : filesystem)
         (results_path output_dir : option string) (prefix : string)
         (data : document) (trades : list (trade string)) (fig : figure),
    argsort_ok argsort ->
    fs (or_default results_path (BACKTEST_RESULTS_FILE cfg)) = Some data ->
    doc_trades data = Some trades ->
    In fig (saved_figures
              (generate_backtest_plots to_datetime argsort cfg fs
                                       results_path output_dir prefix)) ->
    Forall (fun n => n = List.length trades) (figure_lengths fig).
Proof.
  intros argsort fs results_path output_dir prefix data trades fig
         Hok Hfs Hd Hin.
  unfold generate_backtest_plots, generate_backtest_plots_blocks in Hin.
  rewrite Hfs, Hd in Hin.
  destruct trades as [|t0 ts]; [contradiction|].
  set (trades := t0 :: ts) in *.
  set (df := derive to_datetime argsort cfg trades) in *.
  pose proof (length_rows_derive to_datetime cfg argsort trades Hok)
    as Hrows. fold df in Hrows.
  assert (Hcol : forall A (f : trade Z -> cell A),
             List.length (col f df) = List.length trades)
    by (intros A f; unfold col; rewrite length_map; exact Hrows).
  assert (Hcap : forall cap, capital_no_spread df = Some cap ->
                             List.length cap = List.length trades).
  { intros cap Hc.
    destruct (derive_no_spread_cases to_datetime argsort cfg trades)
      as [[_ [pnl [H1 [H2 Hnth]]]] | [_ [_ H2]]];
      fold df in H2; [|congruence].
    assert (cap = scalar_add (INITIAL_CAPITAL cfg) (cumsum pnl))
      by congruence; subst cap.
    unfold scalar_add. rewrite length_map, length_cumsum.
    rewrite (length_of_nth_error spec_no_spread_pnl _ _ Hnth).
    rewrite <- (rows_derive to_datetime argsort cfg trades). exact Hrows. }
  assert (Hbh : forall bh, buy_hold_capital cfg df = Some bh ->
                           List.length bh = List.length trades).
  { intros bh Hb. unfold buy_hold_capital in Hb.
    destruct (base_price df) as [b|]; [|discriminate].
    destruct (nonzero b); [|discriminate]. injection Hb as <-.
    unfold scalar_mul, div_scalar. rewrite !length_map. apply Hcol. }
  unfold chart_blocks in Hin. rewrite !trace_Done in Hin.
  destruct (pnl_per_trade_chart_cases
              (or_default output_dir (LOGS_DIR cfg)) prefix df)
    as [[E _] | E]; rewrite E in Hin;
    [|destruct (pnl_over_time_chart_cases
                  (or_default output_dir (LOGS_DIR cfg)) prefix df)
       as [[E' _] | E']; rewrite E' in Hin];
  unfold equity_curve_chart, equity_vs_buyhold_chart,
    pnl_distribution_chart in Hin;
  destruct (in_columns "exit_time" df), (in_columns "capital_after_exit" df),
    (in_columns "mid_price_exit" df), (in_columns "net_pnl" df),
    (in_columns "direction" df),
    (buy_hold_capital cfg df) as [bh|] eqn:Ebh,
    (capital_no_spread df) as [cap|] eqn:Ecap;
    cbn in Hin;
    repeat (destruct Hin as [<- | Hin]; [|]); try contradiction;
    cbn [figure_lengths app];
    repeat (constructor;
            [first [apply Hcol | apply (Hcap _ eq_refl)
                   | apply (Hbh _ eq_refl)
                   | rewrite length_map; apply Hcol]|]);
    constructor.
Qed.

End Determinism.

(** ** The second curve of the equity chart *)

Section Overlay.

Variable to_datetime : string -> option Z.
Variable argsort : list Z -> list nat.
Variable cfg : config.

(** X13.  When exit_time and capital_after_exit are columns of the frame,
    the run saves the equity curve over the sorted exit times, and that
    figure carries the second, no-spread curve exactly when each of the six
    no-spread fields is a key of some record; the curve is then the
    no-spread capital column. *)
Theorem equity_curve_overlay :
  forall (fs : filesystem) (results_path output_dir : option string)
         (prefix : string) (data : document) (trades : list (trade string)),
    fs (or_default results_path (BACKTEST_RESULTS_FILE cfg)) = Some data ->
    doc_trades data = Some trades ->
    trades <> [] ->
    some_record_has exit_time trades = true ->
    some_record_has capital_after_exit trades = true ->
    let df := derive to_datetime argsort cfg trades in
    In (EquityCurve (col exit_time df) (col capital_after_exit df)
                    (capital_no_spread df))
       (saved_figures
          (generate_backtest_plots to_datetime argsort cfg fs results_path
                                   output_dir prefix)) /\
    is_some (capital_no_spread df) = no_spread_columns_present trades.
Proof.
  intros fs results_path output_dir prefix data trades Hfs Hd Hne Ht Hc df.
  split.
  - rewrite (generate_backtest_plots_runs _ _ _ _ _ _ _ _ _ Hfs Hd Hne).
    unfold df, charts, chart_blocks, equity_curve_chart.
    rewrite column_exit_time, column_capital_after_exit, Ht, Hc.
    left. reflexivity.
  - rewrite <- (issubset_no_spread_cols to_datetime argsort trades).
    destruct (derive_no_spread_cases to_datetime argsort cfg trades)
      as [[Hg [pnl [_ [H2 _]]]] | [Hg [_ H2]]];
      fold df in H2; rewrite Hg, H2; reflexivity.
Qed.

End Overlay.

(** ** The gates of the charts and the two exceptions *)

Section Gates.

Variable to_datetime : string -> option Z.
Variable argsort : list Z -> list nat.
Variable cfg : config.

Local Abbreviation derived := (derive to_datetime argsort cfg).
Local Abbreviation run := (generate_backtest_plots to_datetime argsort cfg).
Local Abbreviation run_raises :=
  (generate_backtest_plots_raises to_datetime argsort cfg).

Lemma column_direction (trades : list (trade string)) :
  in_columns "direction" (derived trades) = some_record_has direction trades.
Proof.
  rewrite in_columns_derive. apply existsb_pointwise, key_direction.
Qed.

(** X14.  On a result file with at least one trade, the equity curve and
    the benchmark chart are saved exactly when their own fields are columns
    of the frame (and the benchmark is computed), whatever the later charts
    do.  When the call returns, each of the three PnL charts is saved
    exactly when its own fields are columns.  When it raises [TypeError],
    net_pnl is a column without a single number and no PnL chart is saved;
    when it raises [ValueError], exit_time, net_pnl and direction are
    columns, some row has a direction other than LONG and SHORT, and the
    bar chart is the only PnL chart saved.  A missing field never makes the
    call raise: without net_pnl the call returns, the three PnL charts are
    skipped and the equity curve is saved whenever exit_time and
    capital_after_exit are present. *)
Theorem charts_saved_by_own_gates :
  forall (fs : filesystem) (results_path output_dir : option string)
         (prefix : string) (data : document) (trades : list (trade string)),
    fs (or_default results_path (BACKTEST_RESULTS_FILE cfg)) = Some data ->
    doc_trades data = Some trades ->
    trades <> [] ->
    let out := run fs results_path output_dir prefix in
    let exc := run_raises fs results_path output_dir prefix in
    let df := derived trades in
    (is_saved equity_curve out =
     some_record_has exit_time trades
     && some_record_has capital_after_exit trades)%bool /\
    (is_saved equity_vs_buyhold out =
     some_record_has exit_time trades
     && some_record_has capital_after_exit trades
     && some_record_has mid_price_exit trades
     && is_some (buy_hold_capital cfg df))%bool /\
    (exc = None ->
     is_saved pnl_per_trade out = some_record_has net_pnl trades /\
     (is_saved pnl_over_time out =
      some_record_has exit_time trades && some_record_has net_pnl trades)%bool
     /\
     is_saved pnl_distribution out = some_record_has net_pnl trades) /\
    (exc = Some TypeError ->
     some_record_has net_pnl trades = true /\
     (forall r, In r (rows df) -> value (net_pnl r) = None) /\
     is_saved pnl_per_trade out = false /\
     is_saved pnl_over_time out = false /\
     is_saved pnl_distribution out = false) /\
    (exc = Some ValueError ->
     some_record_has exit_time trades = true /\
     some_record_has net_pnl trades = true /\
     some_record_has direction trades = true /\
     (exists (r : trade Z) (d : string),
         In r (rows df) /\ direction r = Val d /\
         d <> "LONG"%string /\ d <> "SHORT"%string) /\
     is_saved pnl_per_trade out = true /\
     is_saved pnl_over_time out = false /\
     is_saved pnl_distribution out = false) /\
    (some_record_has net_pnl trades = false ->
     exc = None /\
     is_saved pnl_per_trade out = false /\
     is_saved pnl_over_time out = false /\
     is_saved pnl_distribution out = false /\
     (some_record_has exit_time trades = true ->
      some_record_has capital_after_exit trades = true ->
      is_saved equity_curve out = true)).
Proof.
  intros fs results_path output_dir prefix data trades Hfs Hd Hne out exc df.
  set (dir := or_default output_dir (LOGS_DIR cfg)).
  assert (Hsaved : forall k,
             is_saved k out =
             existsb (chart_kind_eqb k) (saved (charts cfg dir prefix df))).
  { intros k. unfold out.
    rewrite (generate_backtest_plots_runs _ _ _ _ _ _ _ _ _ Hfs Hd Hne).
    reflexivity. }
  assert (Hexc : exc =
                 raised [pnl_per_trade_chart dir prefix df;
                         pnl_over_time_chart dir prefix df;
                         Done (pnl_distribution_chart dir prefix df)]).
  { unfold exc.
    rewrite (generate_backtest_plots_raises_runs _ _ _ _ _ _ _ _ _
                                                 Hfs Hd Hne).
    reflexivity. }
  rewrite !Hsaved, Hexc, saved_charts_blocks.
  pose proof (column_exit_time to_datetime argsort cfg trades) as Ct.
  pose proof (column_capital_after_exit to_datetime argsort cfg trades) as Cc.
  pose proof (column_mid_price_exit to_datetime argsort cfg trades) as Cm.
  pose proof (column_net_pnl to_datetime argsort cfg trades) as Cp.
  pose proof (column_direction trades) as Cd.
  fold df in Ct, Cc, Cm, Cp, Cd.
  destruct (pnl_blocks_cases dir prefix df)
    as [[Hr Hs] | [[Hr [Hs [Hn [_ Hnull]]]]
                  | [Hr [Hs [He [Hn [Hdc Hex]]]]]]];
    rewrite Hr, Hs; clear Hr Hs.
  - rewrite Ct, Cc, Cm, Cp.
    destruct (some_record_has exit_time trades),
      (some_record_has capital_after_exit trades),
      (some_record_has mid_price_exit trades),
      (some_record_has net_pnl trades),
      (buy_hold_capital cfg df);
      cbn; repeat split; intros; try discriminate; reflexivity.
  - rewrite Cp in Hn. rewrite Ct, Cc, Cm, Hn.
    assert (Hnone : forall r, In r (rows df) -> value (net_pnl r) = None)
      by (intros r Hin; rewrite (Hnull r Hin); reflexivity).
    destruct (some_record_has exit_time trades),
      (some_record_has capital_after_exit trades),
      (some_record_has mid_price_exit trades),
      (buy_hold_capital cfg df);
      cbn; repeat split; intros; try discriminate; try reflexivity;
      apply Hnone; assumption.
  - rewrite Ct in He. rewrite Cp in Hn. rewrite Cd in Hdc.
    rewrite Ct, Cc, Cm, He, Hn, Hdc.
    destruct (some_record_has capital_after_exit trades),
      (some_record_has mid_price_exit trades),
      (buy_hold_capital cfg df);
      cbn; repeat split; intros; try discriminate; try reflexivity;
      exact Hex.
Qed.


End Gates.

(** ** The further properties on the sample data *)

(** X1 on the two complete trades: five charts, five confirmations. *)
Lemma run_confirms_each_saved_chart_witness :
  printed (sample_run sample_trades) =
  map (fun p => ("[SAVE] " ++ p)%string)
      (saved_paths (sample_run sample_trades)) /\
  List.length (printed (sample_run sample_trades)) = 5%nat.
Proof.
  destruct (run_confirms_each_saved_chart
              parse_epoch (insertion_argsort false) sample_config
              (sample_fs (Some sample_trades)) None None "backtest"
              {| doc_trades := Some sample_trades |} sample_trades
              eq_refl eq_refl ltac:(discriminate))
    as [figs [_ [H1 H2]]].
  split; [exact H1|]. unfold sample_run. rewrite H2. reflexivity.
Defined.

(** X4 on the two complete trades: the equity curve is written below
    "logs". *)
Lemma saved_paths_and_output_dir_witness :
  In "logs/backtest_equity_curve.png"%string
     (saved_paths (sample_run sample_trades)) /\
  String.prefix "logs" "logs/backtest_equity_curve.png" = true.
Proof.
  assert (Hin : In "logs/backtest_equity_curve.png"%string
                   (saved_paths (sample_run sample_trades)))
    by (left; reflexivity).
  split; [exact Hin|].
  exact (proj1 (saved_paths_and_output_dir
                  parse_epoch (insertion_argsort false) sample_config
                  (sample_fs (Some sample_trades)) None None "backtest"
                  "logs/backtest_equity_curve.png" Hin) eq_refl).
Defined.

(** X5 on a record that has only a direction. *)
Lemma run_without_chart_fields_is_silent_witness :
  some_record_has exit_time bare_trades = false /\
  some_record_has net_pnl bare_trades = false /\
  sample_run bare_trades = [MakeDirs "logs"].
Proof.
  split; [reflexivity|]. split; [reflexivity|].
  exact (run_without_chart_fields_is_silent
           parse_epoch (insertion_argsort false) sample_config
           (sample_fs (Some bare_trades)) None None "backtest"
           {| doc_trades := Some bare_trades |} bare_trades
           eq_refl eq_refl ltac:(discriminate) eq_refl eq_refl).
Defined.

(** X6 on two trades with the same exit time: the two insertion argsorts
    order the rows differently and give the same time axis. *)
Lemma time_axis_independent_of_tie_order_witness :
  argsort_ok (insertion_argsort false) /\
  argsort_ok (insertion_argsort true) /\
  col exit_time
      (derive parse_epoch (insertion_argsort false) sample_config tied_trades)
  = col exit_time
        (derive parse_epoch (insertion_argsort true) sample_config
                tied_trades).
Proof.
  split; [apply insertion_argsort_ok|]. split; [apply insertion_argsort_ok|].
  exact (time_axis_independent_of_tie_order
           parse_epoch sample_config (insertion_argsort false)
           (insertion_argsort true) tied_trades
           (insertion_argsort_ok false) (insertion_argsort_ok true)).
Defined.

(** X7 on two trades whose exit times are not numbers. *)
Lemma unparsable_exit_times_keep_file_order_witness :
  map exit_time unparsable_trades
  = [Val "tomorrow"%string; Val "yesterday"%string] /\
  parse_epoch "tomorrow" = None /\
  parse_epoch "yesterday" = None /\
  rows (sample_derive unparsable_trades)
  = rows (load_frame parse_epoch unparsable_trades).
Proof.
  split; [reflexivity|]. split; [reflexivity|]. split; [reflexivity|].
  apply (unparsable_exit_times_keep_file_order
           parse_epoch sample_config (insertion_argsort false)
           unparsable_trades).
  intros r s [<- | [<- | []]] H; injection H as <-; reflexivity.
Defined.

(** X8 on the two complete trades, given in reverse order of exit. *)
Lemma no_spread_pnl_is_rearrangement_witness :
  argsort_ok (insertion_argsort false) /\
  pnl_no_spread (sample_derive sample_trades)
  = Some [Some (Qz 10); Some (Qz 20)] /\
  map spec_no_spread_pnl sample_trades = [Some (Qz 20); Some (Qz 10)] /\
  Permutation [Some (Qz 10); Some (Qz 20)]
              (map spec_no_spread_pnl sample_trades).
Proof.
  split; [apply insertion_argsort_ok|].
  split; [reflexivity|]. split; [reflexivity|].
  exact (proj1 (no_spread_pnl_is_rearrangement
                  parse_epoch sample_config (insertion_argsort false)
                  sample_trades [Some (Qz 10); Some (Qz 20)]
                  (insertion_argsort_ok false) eq_refl)).
Defined.

(** X9 on a long trade 100 -> 110 of size 2 with slippage 1 and 2: the
    PnL is 14, below the 20 at mid prices. *)
Lemma slippage_lowers_no_spread_pnl_witness :
  pnl_no_spread (sample_derive slippage_trades) = Some [Some (Qz 14)] /\
  exists (r : trade Z) (v : Qc),
    nth_error (rows (sample_derive slippage_trades)) 0 = Some r /\
    direction r = Val "LONG"%string /\
    nth_error [Some (Qz 14)] 0 = Some (Some v) /\
    v <= (Qz 110 - Qz 100) * spec_sign r * Qz 2.
Proof.
  split; [reflexivity|].
  destruct (slippage_lowers_no_spread_pnl
              parse_epoch sample_config (insertion_argsort false)
              slippage_trades [Some (Qz 14)] 0%nat
              (to_datetime_row parse_epoch
                 (hd long_example slippage_trades))
              (Qz 100) (Qz 110) (Qz 2)
              eq_refl eq_refl (or_introl eq_refl)
              eq_refl eq_refl eq_refl
              ltac:(discriminate) ltac:(discriminate) ltac:(discriminate))
    as [v [H1 H2]].
  eexists. exists v. split; [reflexivity|]. split; [reflexivity|].
  split; [exact H1 | exact H2].
Defined.

(** X10 on the two complete trades. *)
Lemma buy_hold_capital_starts_at_initial_capital_witness :
  buy_hold_capital sample_config (sample_derive sample_trades)
  = Some [Some (Qz 10000); Some (Q2Qc (110000 # 9))] /\
  nth_error [Some (Qz 10000); Some (Q2Qc (110000 # 9))] 0 =
  Some (Some (INITIAL_CAPITAL sample_config)).
Proof.
  split; [reflexivity|].
  exact (buy_hold_capital_starts_at_initial_capital
           sample_config (sample_derive sample_trades)
           [Some (Qz 10000); Some (Q2Qc (110000 # 9))] eq_refl).
Defined.

(** X11 on the two complete trades, sorted with either insertion
    argsort. *)
Lemma derived_frame_independent_of_argsort_witness :
  exit_times (rows (load_frame parse_epoch sample_trades)) = [2%Z; 1%Z] /\
  derive parse_epoch (insertion_argsort false) sample_config sample_trades
  = derive parse_epoch (insertion_argsort true) sample_config sample_trades.
Proof.
  split; [reflexivity|].
  refine (proj1 (derived_frame_independent_of_argsort
                   parse_epoch sample_config (insertion_argsort false)
                   (insertion_argsort true) sample_trades
                   (insertion_argsort_ok false) (insertion_argsort_ok true)
                   _)).
  change (NoDup [2%Z; 1%Z]).
  repeat (constructor; [simpl; intuition discriminate|]). constructor.
Defined.

(** X12 on the two complete trades: the histogram gets two values. *)
Lemma saved_figures_have_one_point_per_trade_witness :
  argsort_ok (insertion_argsort false) /\
  In (PnlDistribution [Some (Qz 10); Some (Qz 20)] 40)
     (saved_figures (sample_run sample_trades)) /\
  Forall (fun n => n = 2%nat)
         (figure_lengths (PnlDistribution [Some (Qz 10); Some (Qz 20)] 40)).
Proof.
  assert (Hin : In (PnlDistribution [Some (Qz 10); Some (Qz 20)] 40)
                   (saved_figures (sample_run sample_trades)))
    by (do 4 right; left; reflexivity).
  split; [apply insertion_argsort_ok|]. split; [exact Hin|].
  exact (saved_figures_have_one_point_per_trade
           parse_epoch sample_config (insertion_argsort false)
           (sample_fs (Some sample_trades)) None None "backtest"
           {| doc_trades := Some sample_trades |} sample_trades
           (PnlDistribution [Some (Qz 10); Some (Qz 20)] 40)
           (insertion_argsort_ok false) eq_refl eq_refl Hin).
Defined.

(** X13 on the two complete trades, which carry all six fields. *)
Lemma equity_curve_overlay_witness :
  some_record_has exit_time sample_trades = true /\
  some_record_has capital_after_exit sample_trades = true /\
  In (EquityCurve [Some 1%Z; Some 2%Z]
                  [Some (Qz 10010); Some (Qz 10030)]
                  (Some [Some (Qz 10010); Some (Qz 10030)]))
     (saved_figures (sample_run sample_trades)) /\
  no_spread_columns_present sample_trades = true.
Proof.
  split; [reflexivity|]. split; [reflexivity|].
  destruct (equity_curve_overlay
              parse_epoch (insertion_argsort false) sample_config
              (sample_fs (Some sample_trades)) None None "backtest"
              {| doc_trades := Some sample_trades |} sample_trades
              eq_refl eq_refl ltac:(discriminate) eq_refl eq_refl)
    as [H1 H2].
  split; [exact H1 | rewrite <- H2; reflexivity].
Defined.

(** X14 on trades without net_pnl, where the call returns with the two
    equity charts, and on a FLAT trade, where it raises after the bar
    chart. *)
Lemma charts_saved_by_own_gates_witness :
  (some_record_has net_pnl no_net_pnl_trades = false /\
   saved (sample_run no_net_pnl_trades) = [equity_curve; equity_vs_buyhold] /\
   generate_backtest_plots_raises parse_epoch (insertion_argsort false)
                                  sample_config
                                  (sample_fs (Some no_net_pnl_trades))
                                  None None "backtest" = None /\
   is_saved pnl_distribution (sample_run no_net_pnl_trades) = false /\
   is_saved equity_curve (sample_run no_net_pnl_trades) = true) /\
  (numpy_run_raises flat_trades = Some ValueError /\
   is_saved pnl_per_trade (numpy_run flat_trades) = true /\
   is_saved pnl_distribution (numpy_run flat_trades) = false).
Proof.
  split.
  - split; [reflexivity|]. split; [reflexivity|].
    destruct (charts_saved_by_own_gates
                parse_epoch (insertion_argsort false) sample_config
                (sample_fs (Some no_net_pnl_trades)) None None "backtest"
                {| doc_trades := Some no_net_pnl_trades |} no_net_pnl_trades
                eq_refl eq_refl ltac:(discriminate))
      as [_ [_ [_ [_ [_ H]]]]].
    destruct (H eq_refl) as [H0 [_ [_ [H3 H4]]]].
    split; [exact H0|]. split; [exact H3 | exact (H4 eq_refl eq_refl)].
  - split; [reflexivity|].
    destruct (charts_saved_by_own_gates
                parse_iso numpy_argsort sample_config
                (sample_fs (Some flat_trades)) None None "backtest"
                {| doc_trades := Some flat_trades |} flat_trades
                eq_refl eq_refl ltac:(discriminate))
      as [_ [_ [_ [_ [H _]]]]].
    destruct (H eq_refl) as [_ [_ [_ [_ [H1 [_ H3]]]]]].
    split; [exact H1 | exact H3].
Defined.

